(** * Intrusion detector: the DAM analyzer wrapper and the action log

    A shallow embedding of [src/dam_analyzer.py] and [src/log_manager.py],
    and the properties the design document states about them.

    Python text is modelled as a list of Unicode code points, taken to be
    scalar values, which UTF-8 encodes.  The platform is POSIX: the line
    separator written by text-mode files is a single line feed, and the path
    separator is the slash.  Writing to the console does not fail. *)

From Stdlib Require Import ZArith NArith Ascii String List Lia Bool.
From stdpp Require Import base list gmap.
Import ListNotations.

Local Open Scope N_scope.

(** ** Python strings *)

Abbreviation str := (list N).

(** An ASCII literal of the source as code points. *)
Definition lit (s : string) : str := map N_of_ascii (list_ascii_of_string s).

Definition LF : N := 10.
Definition CR : N := 13.
Definition TAB : N := 9.

(** [str.isspace] on one code point: the characters [str.strip()] removes. *)
Definition is_space (c : N) : bool :=
  ((9 <=? c) && (c <=? 13)) || ((28 <=? c) && (c <=? 32))
  || (c =? 133) || (c =? 160) || (c =? 5760)
  || ((8192 <=? c) && (c <=? 8202))
  || (c =? 8232) || (c =? 8233) || (c =? 8239) || (c =? 8287) || (c =? 12288).

(** The line boundaries of [str.splitlines()], CR LF apart. *)
Definition is_linebreak (c : N) : bool :=
  ((10 <=? c) && (c <=? 13)) || ((28 <=? c) && (c <=? 30))
  || (c =? 133) || (c =? 8232) || (c =? 8233).

Fixpoint lstrip (s : str) : str :=
  match s with
  | c :: s' => if is_space c then lstrip s' else s
  | [] => []
  end.

Definition rstrip (s : str) : str := rev (lstrip (rev s)).

Definition strip (s : str) : str := rstrip (lstrip s).

Fixpoint startswith (s p : str) {struct p} : bool :=
  match p, s with
  | [], _ => true
  | c :: p', d :: s' => (c =? d) && startswith s' p'
  | _ :: _, [] => false
  end.

(** [s.find(sub)]: what precedes and what follows the first occurrence. *)
Fixpoint partition_first (sub s : str) : option (str * str) :=
  if startswith s sub then Some ([], drop (length sub) s)
  else match s with
       | [] => None
       | c :: s' =>
           match partition_first sub s' with
           | Some (before, after) => Some (c :: before, after)
           | None => None
           end
       end.

(** [s.split(sep, 1)] for a non-empty separator. *)
Definition split_max1 (sep s : str) : list str :=
  match partition_first sep s with
  | Some (before, after) => [before; after]
  | None => [s]
  end.

(** [sub in s], which is also [re.search] of a pattern without
    metacharacters. *)
Definition contains (sub s : str) : bool :=
  match partition_first sub s with Some _ => true | None => false end.

(** [str.splitlines()]: the lines without their terminators; a final
    terminator opens no further line. *)
Fixpoint splitlines (s : str) : list str :=
  match s with
  | [] => []
  | c :: s' =>
      if c =? CR then
        match s' with
        | d :: s'' => if d =? LF then [] :: splitlines s'' else [] :: splitlines s'
        | [] => [[]]
        end
      else if is_linebreak c then [] :: splitlines s'
      else match splitlines s' with
           | [] => [[c]]
           | l :: ls => (c :: l) :: ls
           end
  end.

(** Truth value of a string: non-empty. *)
Definition truthy (s : str) : bool :=
  match s with [] => false | _ :: _ => true end.

(** [", ".join(parts)] and the like. *)
Fixpoint join_str (sep : str) (parts : list str) : str :=
  match parts with
  | [] => []
  | [x] => x
  | x :: rest => x ++ sep ++ join_str sep rest
  end.

(** Decimal digits of a natural number, most significant first. *)
Fixpoint digits_from (fuel : nat) (n : N) (acc : str) : str :=
  match fuel with
  | O => acc
  | S fuel' =>
      let acc' := (48 + n mod 10) :: acc in
      if n <? 10 then acc' else digits_from fuel' (n / 10) acc'
  end.

Definition str_of_N (n : N) : str := digits_from (S (N.to_nat (N.log2 n))) n [].

(** [str(i)] of an integer. *)
Definition str_of_Z (z : Z) : str :=
  if (z <? 0)%Z then lit "-" ++ str_of_N (Z.abs_N z) else str_of_N (Z.to_N z).

(** ** Paths

    A pure POSIX path: whether it is anchored at the root, and its
    components. *)

Record Path := { root : bool; parts : list str }.

#[global] Instance Path_eq_dec : EqDecision Path.
Proof. solve_decision. Defined.

#[global] Instance Path_countable : Countable Path.
Proof.
  refine (inj_countable' (fun p => (root p, parts p))
                         (fun t => {| root := t.1; parts := t.2 |}) _).
  intros []; reflexivity.
Defined.

(** [str(path)] *)
Definition path_str (p : Path) : str :=
  match root p, parts p with
  | false, [] => lit "."
  | false, ps => join_str (lit "/") ps
  | true, ps => lit "/" ++ join_str (lit "/") ps
  end.

(** [path.name]: the final component, empty for the root and for [.]. *)
Definition path_name (p : Path) : str := default [] (last (parts p)).

(** ** Exceptions and effects *)

Inductive exn :=
| RuntimeError (msg : str)
| FileNotFoundError (what : str)
| PermissionError (what : str)
| SameFileError (what : str)
| ValueError (msg : str)
| OSError (msg : str)
| KeyboardInterrupt
| SystemExit.

(** Whether the exception is an instance of [Exception], which is what
    [except Exception] catches; interrupts and exits are not. *)
Definition is_Exception (e : exn) : bool :=
  match e with
  | KeyboardInterrupt | SystemExit => false
  | _ => true
  end.

(** A computation over a state [S] that returns or raises. *)
Definition M (S A : Type) : Type := S -> result A exn * S.

Definition ret {S A} (a : A) : M S A := fun s => (Ok a, s).

Definition raise {S A} (e : exn) : M S A := fun s => (Error e, s).

Definition bind {S A B} (m : M S A) (k : A -> M S B) : M S B :=
  fun s =>
    match m s with
    | (Ok a, s') => k a s'
    | (Error e, s') => (Error e, s')
    end.

(** [try: body  except Exception as e: handler e] *)
Definition try_except {S A} (body : M S A) (handler : exn -> M S A) : M S A :=
  fun s =>
    match body s with
    | (Ok a, s') => (Ok a, s')
    | (Error e, s') => if is_Exception e then handler e s' else (Error e, s')
    end.

Notation "x <- m ;; k" := (bind m (fun x => k))
  (at level 100, m at next level, right associativity).
Notation "m ;; k" := (bind m (fun _ => k))
  (at level 100, right associativity).

(** ** Dates and times *)

Record datetime := {
  year : N; month : N; day : N;
  hour : N; minute : N; second : N; microsecond : N
}.

Definition digit (n : N) : N := 48 + n mod 10.

Definition pad2 (n : N) : str := [digit (n / 10); digit n].
Definition pad4 (n : N) : str :=
  [digit (n / 1000); digit (n / 100); digit (n / 10); digit n].
Definition pad6 (n : N) : str :=
  [digit (n / 100000); digit (n / 10000); digit (n / 1000);
   digit (n / 100); digit (n / 10); digit n].

(** One directive of [strftime]; the source uses Y, m, d, H, M and S.
    The year is written with four digits, as it is from the year 1000 on. *)
Definition directive (dt : datetime) (d : N) : str :=
  if d =? 89 then pad4 (year dt)
  else if d =? 109 then pad2 (month dt)
  else if d =? 100 then pad2 (day dt)
  else if d =? 72 then pad2 (hour dt)
  else if d =? 77 then pad2 (minute dt)
  else if d =? 83 then pad2 (second dt)
  else [37; d].

Fixpoint strftime (dt : datetime) (fmt : str) : str :=
  match fmt with
  | [] => []
  | c :: rest =>
      if c =? 37 then
        match rest with
        | d :: rest' => directive dt d ++ strftime dt rest'
        | [] => [37]
        end
      else c :: strftime dt rest
  end.

(** [dt.isoformat()]: the microseconds are written only when not zero. *)
Definition isoformat (dt : datetime) : str :=
  pad4 (year dt) ++ lit "-" ++ pad2 (month dt) ++ lit "-" ++ pad2 (day dt)
  ++ lit "T" ++ pad2 (hour dt) ++ lit ":" ++ pad2 (minute dt)
  ++ lit ":" ++ pad2 (second dt)
  ++ (if microsecond dt =? 0 then [] else lit "." ++ pad6 (microsecond dt)).

(** ** JSON values and [json.dumps(value, ensure_ascii=False)] *)

#[warnings="-register-all"]
Inductive json (F : Type) :=
| JNull
| JBool (b : bool)
| JInt (z : Z)
| JFloat (x : F)
| JStr (s : str)
| JList (items : list (json F))
| JDict (members : list (str * json F)).
Arguments JNull {F}.
Arguments JBool {F} _.
Arguments JInt {F} _.
Arguments JFloat {F} _.
Arguments JStr {F} _.
Arguments JList {F} _.
Arguments JDict {F} _.

Definition hex_digit (n : N) : N :=
  let d := n mod 16 in if d <? 10 then 48 + d else 87 + d.

(** The replacement of one character inside a JSON string: the quote, the
    backslash and the control characters are escaped, all the rest is kept. *)
Definition json_escape (c : N) : str :=
  if c =? 34 then [92; 34]
  else if c =? 92 then [92; 92]
  else if c =? 10 then lit "\n"
  else if c =? 13 then lit "\r"
  else if c =? 9 then lit "\t"
  else if c =? 8 then lit "\b"
  else if c =? 12 then lit "\f"
  else if c <? 32 then lit "\u00" ++ [hex_digit (c / 16); hex_digit c]
  else [c].

Definition json_string (s : str) : str := [34] ++ flat_map json_escape s ++ [34].

Section Dumps.
Context {F : Type}.
(** What [json.dumps] writes for a float: its [repr], and [NaN],
    [Infinity], [-Infinity] for the values that are not finite. *)
Variable float_json : F -> str.

Fixpoint json_dumps (v : json F) : str :=
  match v with
  | JNull => lit "null"
  | JBool true => lit "true"
  | JBool false => lit "false"
  | JInt z => str_of_Z z
  | JFloat x => float_json x
  | JStr s => json_string s
  | JList items => lit "[" ++ join_str (lit ", ") (map json_dumps items) ++ lit "]"
  | JDict members =>
      lit "{"
      ++ join_str (lit ", ")
           (map (fun kv => json_string (fst kv) ++ lit ": " ++ json_dumps (snd kv))
                members)
      ++ lit "}"
  end.

End Dumps.

(** ** Text files

    A file has its text and the metadata [shutil.copy2] carries over: the
    permission to read and to write, and the time of the last change. *)

Record file := {
  data : str;
  readable : bool;
  writable : bool;
  mtime : datetime
}.

(** Size in bytes of the UTF-8 encoding. *)
Definition utf8_len (c : N) : N :=
  if c <? 128 then 1 else if c <? 2048 then 2 else if c <? 65536 then 3 else 4.

Definition st_size (f : file) : N := fold_right (fun c n => utf8_len c + n) 0 (data f).

(** [f.readlines()] of a file opened in text mode: a lone CR and CR LF
    end a line as LF does, and each is handed over as LF. *)
Fixpoint readlines (s : str) : list str :=
  match s with
  | [] => []
  | c :: s' =>
      if c =? CR then
        match s' with
        | d :: s'' => if d =? LF then [LF] :: readlines s'' else [LF] :: readlines s'
        | [] => [[LF]]
        end
      else if c =? LF then [LF] :: readlines s'
      else match readlines s' with
           | [] => [[c]]
           | l :: ls => (c :: l) :: ls
           end
  end.

(** [l[start:]] with Python's treatment of a negative or too large start. *)
Definition slice_from {A} (start : Z) (l : list A) : list A :=
  let n := Z.of_nat (length l) in
  let i := if (start <? 0)%Z then Z.max 0 (start + n) else Z.min start n in
  drop (Z.to_nat i) l.

(** [name.rfind(c)] *)
Fixpoint rfind_char (c : N) (s : str) : option nat :=
  match s with
  | [] => None
  | d :: s' =>
      match rfind_char c s' with
      | Some i => Some (S i)
      | None => if d =? c then Some O else None
      end
  end.

(** [path.suffix]: the last extension of the name, with its dot. *)
Definition path_suffix (p : Path) : str :=
  let name := path_name p in
  match rfind_char 46 name with
  | Some i => if ((0 <? i) && (i <? length name - 1))%nat then drop i name else []
  | None => []
  end.

(** [path.stem]: the name without its last extension. *)
Definition path_stem (p : Path) : str :=
  take (length (path_name p) - length (path_suffix p)) (path_name p).

(** The path with its final component replaced. *)
Definition with_name (p : Path) (name : str) : Path :=
  {| root := root p; parts := removelast (parts p) ++ [name] |}.

(** [path.with_suffix(suffix)] *)
Definition with_suffix (p : Path) (suffix : str) : result Path exn :=
  if contains (lit "/") suffix then Error (ValueError (lit "Invalid suffix"))
  else if (truthy suffix && negb (startswith suffix (lit ".")))
          || bool_decide (suffix = lit ".")
  then Error (ValueError (lit "Invalid suffix"))
  else
    let name := path_name p in
    if negb (truthy name) then Error (ValueError (lit "empty name"))
    else
      let old_suffix := path_suffix p in
      if negb (truthy old_suffix) then Ok (with_name p (name ++ suffix))
      else Ok (with_name p (take (length name - length old_suffix) name ++ suffix)).

(** ** The analyzer: description extraction *)

Module DAMAnalyzer.

Definition marker : str := lit "Description:".

(** The alternatives of the regular expression the fallback searches for. *)
Definition noise_patterns : list str :=
  [lit "frame loading"; lit "propagate in video";
   lit "Loading checkpoint"; lit "UserWarning"].

Definition re_search_noise (l : str) : bool :=
  existsb (fun pat => contains pat l) noise_patterns.

(** One turn of the loop over the lines: the new value of [desc]. *)
Definition scan_line (desc line : str) : str :=
  if startswith line marker
  then strip (nth 1 (split_max1 marker line) [])
  else desc.

Definition is_clean (l : str) : bool :=
  truthy (strip l) && negb (re_search_noise l).

Definition _extract_description (raw_output : str) : str :=
  let desc := fold_left scan_line (splitlines raw_output) [] in
  if truthy desc then desc
  else
    let clean_lines := List.filter is_clean (splitlines raw_output) in
    match last clean_lines with
    | Some l => strip l
    | None => strip raw_output
    end.

Record CompletedProcess := { returncode : Z; stdout : str; stderr : str }.

(** The analyzer object; [F] is the type of Python floats. *)
Record Analyzer (F : Type) := {
  dam_script_path : Path;
  temperature : F;
  top_p : F;
  prompt : str
}.
Arguments dam_script_path {F} _.
Arguments temperature {F} _.
Arguments top_p {F} _.
Arguments prompt {F} _.

(** What the analyzer prints, message by message. *)
Inductive message :=
| Started (sam2 : bool)
| StderrBanner
| Text (s : str)
| Finished (sam2 : bool) (description : str)
| Failed (sam2 : bool) (e : exn).

Definition default_prompt : str :=
  lit "Video: <image><image><image><image><image><image><image><image>"
  ++ [LF]
  ++ lit "Return **one concise English sentence** that describes ONLY the subject's action or state change. "
  ++ lit "Do NOT mention appearance, colour, clothing, background, objects, or physical attributes.".

(** [a or b] on strings. *)
Definition str_or (a b : str) : str := if truthy a then a else b.

Section Analyze.
Context {F : Type}.
(** [str(x)] of a float. *)
Variable float_str : F -> str.
(** [sys.executable] *)
Variable sys_executable : str.
(** The outcome of [subprocess.run] with captured text output: a completed
    process, or the exception raised while launching or waiting. *)
Variable subprocess_run : list str -> result CompletedProcess exn.

(** The constructor; [script_exists] is [dam_script_path.exists()]. *)
Definition init (script_exists : bool) (dam_script_path : Path)
    (temperature top_p : F) : result (Analyzer F) exn :=
  if negb script_exists
  then Error (FileNotFoundError
                (lit "DAM script not found at: " ++ path_str dam_script_path))
  else Ok {| dam_script_path := dam_script_path; temperature := temperature;
             top_p := top_p; prompt := default_prompt |}.

(** [str(bbox_normalized)] of a list of floats. *)
Definition list_str (xs : list F) : str :=
  lit "[" ++ join_str (lit ", ") (map float_str xs) ++ lit "]".

Definition print (m : message) : M (list message) unit :=
  fun out => (Ok tt, out ++ [m]).

Definition run (cmd : list str) : M (list message) CompletedProcess :=
  fun out => (subprocess_run cmd, out).

Definition analyze_with_bbox (self : Analyzer F) (video_path : Path)
    (bbox_normalized : list F) : M (list message) (option str) :=
  try_except
    (let cmd :=
       [sys_executable; path_str (dam_script_path self);
        lit "--video_file"; path_str video_path;
        lit "--box"; list_str bbox_normalized;
        lit "--normalized_coords";
        lit "--use_box";
        lit "--no_stream";
        lit "--temperature"; float_str (temperature self);
        lit "--top_p"; float_str (top_p self);
        lit "--query"; prompt self] in
     print (Started false) ;;
     result <- run cmd ;;
     (if negb (returncode result =? 0)%Z
      then print StderrBanner ;;
           print (Text (stderr result)) ;;
           raise (RuntimeError (lit "DAM exited " ++ str_of_Z (returncode result)))
      else ret tt) ;;
     let description := _extract_description (str_or (stdout result) (stderr result)) in
     print (Finished false description) ;;
     ret (Some description))
    (fun e => print (Failed false e) ;; ret None).

Definition analyze_with_sam2 (self : Analyzer F) (video_path : Path)
    (bbox_normalized : list F) : M (list message) (option str) :=
  try_except
    (let cmd :=
       [sys_executable; path_str (dam_script_path self);
        lit "--video_file"; path_str video_path;
        lit "--box"; list_str bbox_normalized;
        lit "--normalized_coords";
        lit "--use_box";
        lit "--use_sam2";
        lit "--no_stream";
        lit "--temperature"; float_str (temperature self);
        lit "--top_p"; float_str (top_p self);
        lit "--query"; prompt self] in
     print (Started true) ;;
     result <- run cmd ;;
     (if negb (returncode result =? 0)%Z
      then print StderrBanner ;;
           print (Text (stderr result)) ;;
           raise (RuntimeError (lit "DAM exited " ++ str_of_Z (returncode result)))
      else ret tt) ;;
     let description := _extract_description (str_or (stdout result) (stderr result)) in
     print (Finished true description) ;;
     ret (Some description))
    (fun e => print (Failed true e) ;; ret None).

Definition analyze_video (self : Analyzer F) (video_path : Path)
    (bbox_normalized : list F) (use_sam2 : bool) : M (list message) (option str) :=
  if use_sam2
  then analyze_with_sam2 self video_path bbox_normalized
  else analyze_with_bbox self video_path bbox_normalized.

End Analyze.

(** What the setters print. *)
Inductive notice :=
| PromptChanged (shown : str)
| ParametersChanged (temperature top_p : str).

(** The dictionary [get_info] returns. *)
Record Info (F : Type) := {
  info_dam_script_path : str;
  info_temperature : F;
  info_top_p : F;
  info_prompt : str
}.
Arguments info_dam_script_path {F} _.
Arguments info_temperature {F} _.
Arguments info_top_p {F} _.
Arguments info_prompt {F} _.

Section Settings.
Context {F : Type}.
Variable float_str : F -> str.

(** The analyzer after the assignment, and the message, which shows the
    first fifty characters of the prompt. *)
Definition set_prompt (self : Analyzer F) (new_prompt : str) : Analyzer F * notice :=
  ({| dam_script_path := dam_script_path self; temperature := temperature self;
      top_p := top_p self; prompt := new_prompt |},
   PromptChanged (take 50 new_prompt)).

(** A parameter left out, [None], stays as it is. *)
Definition set_parameters (self : Analyzer F) (new_temperature new_top_p : option F)
    : Analyzer F * notice :=
  let self1 :=
    match new_temperature with
    | Some t => {| dam_script_path := dam_script_path self; temperature := t;
                   top_p := top_p self; prompt := prompt self |}
    | None => self
    end in
  let self2 :=
    match new_top_p with
    | Some p => {| dam_script_path := dam_script_path self1;
                   temperature := temperature self1;
                   top_p := p; prompt := prompt self1 |}
    | None => self1
    end in
  (self2, ParametersChanged (float_str (temperature self2)) (float_str (top_p self2))).

Definition get_info (self : Analyzer F) : Info F :=
  {| info_dam_script_path := path_str (dam_script_path self);
     info_temperature := temperature self;
     info_top_p := top_p self;
     info_prompt := prompt self |}.

End Settings.

End DAMAnalyzer.


(** ** The log manager *)

Module LogManager.

(** What the log manager prints, message by message. *)
Inductive message :=
| Created (p : Path)
| CreateFailed (e : exn)
| Saved (description : str)
| SaveFailed (e : exn)
| ReadFailed (e : exn)
| StatsFailed (e : exn)
| Cleared
| ClearFailed (e : exn)
| NothingToBackUp
| BackedUp (p : Path)
| BackupFailed (e : exn).

(** The world the log manager acts on: the files, the clock as the
    readings it gives at successive instants, and the console. *)
Record world := {
  files : gmap Path file;
  clock : nat -> datetime;
  tick : nat;
  console : list message
}.

Definition set_files (fs : gmap Path file) (w : world) : world :=
  {| files := fs; clock := clock w; tick := tick w; console := console w |}.

Definition print (m : message) : M world unit :=
  fun w => (Ok tt, {| files := files w; clock := clock w; tick := tick w;
                      console := console w ++ [m] |}).

(** [datetime.now()] *)
Definition now : M world datetime :=
  fun w => (Ok (clock w (tick w)),
            {| files := files w; clock := clock w; tick := S (tick w);
               console := console w |}).

(** [path.exists()] *)
Definition path_exists (p : Path) : M world bool :=
  fun w => (Ok (match files w !! p with Some _ => true | None => false end), w).

(** [path.stat()] *)
Definition stat (p : Path) : M world file :=
  fun w =>
    match files w !! p with
    | Some f => (Ok f, w)
    | None => (Error (FileNotFoundError (path_str p)), w)
    end.

(** [path.open("w")]: the file is emptied, or made. *)
Definition open_w (p : Path) : M world unit :=
  fun w =>
    match files w !! p with
    | Some f =>
        if writable f
        then (Ok tt, set_files (<[p := {| data := []; readable := readable f;
                                          writable := true;
                                          mtime := clock w (tick w) |}]> (files w)) w)
        else (Error (PermissionError (path_str p)), w)
    | None =>
        (Ok tt, set_files (<[p := {| data := []; readable := true; writable := true;
                                     mtime := clock w (tick w) |}]> (files w)) w)
    end.

(** [path.open("a")]: the file is kept, or made. *)
Definition open_a (p : Path) : M world unit :=
  fun w =>
    match files w !! p with
    | Some f =>
        if writable f then (Ok tt, w)
        else (Error (PermissionError (path_str p)), w)
    | None =>
        (Ok tt, set_files (<[p := {| data := []; readable := true; writable := true;
                                     mtime := clock w (tick w) |}]> (files w)) w)
    end.

(** [path.open("r")] *)
Definition open_r (p : Path) : M world unit :=
  fun w =>
    match files w !! p with
    | Some f =>
        if readable f then (Ok tt, w)
        else (Error (PermissionError (path_str p)), w)
    | None => (Error (FileNotFoundError (path_str p)), w)
    end.

(** [f.write(s)] on a file open for writing: the text goes to its end. *)
Definition f_write (p : Path) (s : str) : M world unit :=
  fun w =>
    match files w !! p with
    | Some f =>
        (Ok tt, set_files (<[p := {| data := data f ++ s; readable := readable f;
                                     writable := writable f;
                                     mtime := clock w (tick w) |}]> (files w)) w)
    | None => (Error (OSError (path_str p)), w)
    end.

(** [f.readlines()] *)
Definition f_readlines (p : Path) : M world (list str) :=
  fun w =>
    match files w !! p with
    | Some f => (Ok (readlines (data f)), w)
    | None => (Error (OSError (path_str p)), w)
    end.

(** [shutil.copy2(src, dst)]: the text, then the metadata. *)
Definition copy2 (src dst : Path) : M world unit :=
  fun w =>
    match files w !! src with
    | None => (Error (FileNotFoundError (path_str src)), w)
    | Some f =>
        if bool_decide (src = dst) then (Error (SameFileError (path_str src)), w)
        else if negb (readable f) then (Error (PermissionError (path_str src)), w)
        else
          match files w !! dst with
          | Some g =>
              if writable g then (Ok tt, set_files (<[dst := f]> (files w)) w)
              else (Error (PermissionError (path_str dst)), w)
          | None => (Ok tt, set_files (<[dst := f]> (files w)) w)
          end
    end.

Definition lift {A} (r : result A exn) : M world A := fun w => (r, w).

(** The dictionary [get_log_stats] returns. *)
Inductive stats :=
| StatsAbsent
| Stats (total_entries : nat) (file_size : N) (file_path last_modified : str)
| StatsError (e : exn).

(** [stats["total_entries"]], where the key is there. *)
Definition total_entries (s : stats) : option nat :=
  match s with
  | StatsAbsent => Some O
  | Stats n _ _ _ => Some n
  | StatsError _ => None
  end.

Record LogManager := { log_file_path : Path }.

(** A line of the file that counts as an entry: not blank, no comment. *)
Definition is_entry (line : str) : bool :=
  truthy (strip line) && negb (startswith line (lit "#")).

Section Operations.
Context {F : Type}.
Variable float_json : F -> str.

Definition _create_log_file (self : LogManager) : M world unit :=
  let f := log_file_path self in
  try_except
    (open_w f ;;
     f_write f (lit "# Action Log File" ++ [LF]) ;;
     f_write f (lit "# Format: TIME_RANGE\tDESCRIPTION\tBBOX_INFO" ++ [LF]) ;;
     t <- now ;;
     f_write f (lit "# Created: " ++ isoformat t ++ [LF]) ;;
     f_write f [LF] ;;
     print (Created f))
    (fun e => print (CreateFailed e)).

(** The constructor; the directory of the log file is taken to be there. *)
Definition init (log_file_path : Path) : M world LogManager :=
  let self := {| log_file_path := log_file_path |} in
  there <- path_exists log_file_path ;;
  (if negb there then _create_log_file self else ret tt) ;;
  ret self.

Definition time_range (start_dt end_dt : datetime) : str :=
  strftime start_dt (lit "%Y-%m-%d-%H%M%S") ++ lit "~" ++ strftime end_dt (lit "%H%M%S").

(** Truth value of the optional dictionary: there, and not empty. *)
Definition dict_truthy (bbox_info : option (list (str * json F))) : bool :=
  match bbox_info with
  | Some (_ :: _) => true
  | _ => false
  end.

Definition dumps_dict (bbox_info : option (list (str * json F))) : str :=
  match bbox_info with
  | Some d => json_dumps float_json (JDict d)
  | None => lit "null"
  end.

Definition append_log (self : LogManager) (start_dt end_dt : datetime)
    (description : str) (bbox_info : option (list (str * json F))) : M world bool :=
  let f := log_file_path self in
  try_except
    (let time_range := time_range start_dt end_dt in
     timestamp <- now ;;
     open_a f ;;
     (if dict_truthy bbox_info
      then f_write f (time_range ++ [TAB] ++ description ++ [TAB]
                      ++ dumps_dict bbox_info ++ [LF])
      else f_write f (time_range ++ [TAB] ++ description ++ [LF])) ;;
     print (Saved description) ;;
     ret true)
    (fun e => print (SaveFailed e) ;; ret false).

(** [count] is 10 when the caller leaves it out. *)
Definition read_recent_logs (self : LogManager) (count : Z) : M world (list str) :=
  let f := log_file_path self in
  try_except
    (there <- path_exists f ;;
     if negb there then ret []
     else
       open_r f ;;
       lines <- f_readlines f ;;
       let log_lines := map strip (List.filter is_entry lines) in
       ret (match log_lines with
            | [] => []
            | _ :: _ => slice_from (- count) log_lines
            end))
    (fun e => print (ReadFailed e) ;; ret []).

Definition get_log_stats (self : LogManager) : M world stats :=
  let f := log_file_path self in
  try_except
    (there <- path_exists f ;;
     if negb there then ret StatsAbsent
     else
       st <- stat f ;;
       let file_size := st_size st in
       open_r f ;;
       lines <- f_readlines f ;;
       let log_entries := length (List.filter is_entry lines) in
       st' <- stat f ;;
       ret (Stats log_entries file_size (path_str f) (isoformat (mtime st'))))
    (fun e => print (StatsFailed e) ;; ret (StatsError e)).

Definition clear_logs (self : LogManager) : M world bool :=
  try_except
    (_create_log_file self ;;
     print Cleared ;;
     ret true)
    (fun e => print (ClearFailed e) ;; ret false).

Definition backup_logs (self : LogManager) (backup_suffix : option str)
    : M world (option Path) :=
  let f := log_file_path self in
  try_except
    (there <- path_exists f ;;
     if negb there then print NothingToBackUp ;; ret None
     else
       backup_suffix <- match backup_suffix with
                        | None => t <- now ;; ret (strftime t (lit "%Y%m%d_%H%M%S"))
                        | Some s => ret s
                        end ;;
       backup_path <- lift (with_suffix f (lit "." ++ backup_suffix ++ lit ".txt")) ;;
       copy2 f backup_path ;;
       print (BackedUp backup_path) ;;
       ret (Some backup_path))
    (fun e => print (BackupFailed e) ;; ret None).

(** [start_dt + timedelta(seconds=n)]: the later time, or the error of a
    date out of range. *)
Variable add_seconds : datetime -> Z -> result datetime exn.

(** [analysis_mode] is ["bbox_based"] and [duration_sec] is 5 when the
    caller leaves them out. *)
Definition log_analysis_result (self : LogManager) (video_path : Path)
    (bbox_normalized : list F) (description : str) (analysis_mode : str)
    (duration_sec : Z) : M world bool :=
  start_dt <- now ;;
  end_dt <- lift (add_seconds start_dt duration_sec) ;;
  let bbox_info :=
    [(lit "bbox_normalized", JList (map JFloat bbox_normalized));
     (lit "analysis_mode", JStr analysis_mode);
     (lit "video_path", JStr (path_str video_path));
     (lit "duration_sec", JInt duration_sec)] in
  append_log self start_dt end_dt description (Some bbox_info).

(** [description or f"API trigger: {signal_type}"] *)
Definition trigger_description (signal_type : str) (description : option str) : str :=
  match description with
  | Some d => if truthy d then d else lit "API trigger: " ++ signal_type
  | None => lit "API trigger: " ++ signal_type
  end.

Definition log_api_trigger (self : LogManager) (signal_type : str)
    (bbox_normalized : list F) (metadata : list (str * json F))
    (description : option str) : M world bool :=
  start_dt <- now ;;
  end_dt <- lift (add_seconds start_dt 1) ;;
  let log_description := trigger_description signal_type description in
  let bbox_info :=
    [(lit "signal_type", JStr signal_type);
     (lit "bbox_normalized", JList (map JFloat bbox_normalized));
     (lit "metadata", JDict metadata);
     (lit "source", JStr (lit "api_trigger"))] in
  append_log self start_dt end_dt log_description (Some bbox_info).

End Operations.

End LogManager.

(** ** The statements of the design document, and sample data *)

Module AnalyzerStated.
Import DAMAnalyzer.

(** With a marker line in the output, the result is the trimmed text after
    the marker of the last such line. *)
Definition marker_text_returned (raw : str) : Prop :=
  forall pre l post,
    splitlines raw = pre ++ l :: post ->
    startswith l marker = true ->
    Forall (fun l' => startswith l' marker = false) post ->
    _extract_description raw = strip (drop (length marker) l).

(** Whether a captured stream has a line starting with the marker. *)
Definition carries_description (s : str) : bool :=
  existsb (fun l => startswith l marker) (splitlines s).

(** On exit code zero the description comes from the stream, of the two,
    that carries the marker line. *)
Definition extracted_from_carrying_stream : Prop :=
  forall (F : Type) (float_str : F -> str) (exe : str)
         (run : list str -> result CompletedProcess exn)
         (self : Analyzer F) (video : Path) (bbox : list F) (use_sam2 : bool)
         (r : CompletedProcess) (out : list message),
    (forall cmd, run cmd = Ok r) ->
    returncode r = 0%Z ->
    forall s other,
      (s = stdout r /\ other = stderr r) \/ (s = stderr r /\ other = stdout r) ->
      carries_description s = true ->
      carries_description other = false ->
      fst (analyze_video float_str exe run self video bbox use_sam2 out)
      = Ok (Some (_extract_description s)).

(** An analyzer, a clip and a box to run the operations on. *)
Definition sample_analyzer : Analyzer unit :=
  {| dam_script_path := {| root := false; parts := [lit "dam_video.py"] |};
     temperature := tt; top_p := tt; prompt := default_prompt |}.

Definition sample_video : Path := {| root := false; parts := [lit "clip.mp4"] |}.

Definition sample_float_str (x : unit) : str := lit "0.1".

(** A run that ends well, with progress on the standard output and the
    description on the standard error. *)
Definition description_on_stderr : CompletedProcess :=
  {| returncode := 0;
     stdout := lit "Loading checkpoint" ++ [LF];
     stderr := lit "Description: person waves hand." ++ [LF] |}.

Definition failed_run : CompletedProcess :=
  {| returncode := 1; stdout := []; stderr := lit "no such file" ++ [LF] |}.

End AnalyzerStated.

Module LogStated.
Import LogManager.

(** Neither a line feed nor a carriage return in the text. *)
Definition no_newline (s : str) : bool :=
  forallb (fun c => negb (c =? LF) && negb (c =? CR)) s.

(** A visible ASCII character. *)
Definition graphic (c : N) : bool := (33 <=? c) && (c <=? 126).

(** The text is empty or ends with a line feed: whatever is written next
    starts a line of its own. *)
Definition ends_with_newline (s : str) : bool :=
  match last s with
  | Some c => c =? LF
  | None => true
  end.

(** The text of the log file, empty when there is no file. *)
Definition log_text (w : world) (self : LogManager) : str :=
  match files w !! log_file_path self with
  | Some f => data f
  | None => []
  end.

(** The entries of a log text: its lines that are neither blank nor
    comments. *)
Definition count_entries (content : str) : nat :=
  length (List.filter is_entry (readlines content)).

(** The fixed header: title, format, time of creation, blank line. *)
Definition header (created : datetime) : str :=
  lit "# Action Log File" ++ [LF]
  ++ lit "# Format: TIME_RANGE\tDESCRIPTION\tBBOX_INFO" ++ [LF]
  ++ lit "# Created: " ++ isoformat created ++ [LF]
  ++ [LF].

(** The number of entries [get_log_stats] reports. *)
Definition reported_entries (self : LogManager) (w : world) : option nat :=
  match fst (get_log_stats self w) with
  | Ok st => total_entries st
  | Error _ => None
  end.

(** The log file is there, may be read and written, ends with a line
    feed and has [n] entries. *)
Definition log_ready (self : LogManager) (w : world) (n : nat) : Prop :=
  exists f,
    files w !! log_file_path self = Some f
    /\ readable f = true /\ writable f = true
    /\ ends_with_newline (data f) = true
    /\ count_entries (data f) = n.

(** One call of [append_log], with its arguments. *)
Record entry (F : Type) := {
  start_dt : datetime;
  end_dt : datetime;
  description : str;
  bbox_info : option (list (str * json F))
}.
Arguments start_dt {F} _.
Arguments end_dt {F} _.
Arguments description {F} _.
Arguments bbox_info {F} _.

Definition append_entry {F} (float_json : F -> str) (self : LogManager)
    (e : entry F) : M world bool :=
  append_log float_json self (start_dt e) (end_dt e) (description e) (bbox_info e).

(** A run of successful calls of [append_log], one after the other. *)
Inductive appended {F} (float_json : F -> str) (self : LogManager)
  : world -> list (entry F) -> world -> Prop :=
| appended_nil w : appended float_json self w [] w
| appended_cons w e w' es w'' :
    append_entry float_json self e w = (Ok true, w') ->
    appended float_json self w' es w'' ->
    appended float_json self w (e :: es) w''.

(** The line the document describes: time range, tab, description, and
    with metadata a tab and their JSON text. *)
Definition described_line {F} (float_json : F -> str) (e : entry F) : str :=
  time_range (start_dt e) (end_dt e) ++ [TAB] ++ description e
  ++ match bbox_info e with
     | Some d => [TAB] ++ json_dumps float_json (JDict d)
     | None => []
     end.

(** The line the code writes: the metadata only when not empty. *)
Definition written_line {F} (float_json : F -> str) (e : entry F) : str :=
  time_range (start_dt e) (end_dt e) ++ [TAB] ++ description e
  ++ (if dict_truthy (bbox_info e)
      then [TAB] ++ dumps_dict float_json (bbox_info e)
      else []).

(** The backup path the code computes: the last extension of the name
    gives way to the suffix and [.txt]. *)
Definition backup_path (p : Path) (suffix : str) : Path :=
  with_name p (path_stem p ++ lit "." ++ suffix ++ lit ".txt").

(** The suffix of a backup: the one given, or else the time of the call
    as [YYYYMMDD_HHMMSS]. *)
Definition backup_suffix_of (backup_suffix : option str) (w : world) : str :=
  match backup_suffix with
  | Some s => s
  | None => strftime (clock w (tick w)) (lit "%Y%m%d_%H%M%S")
  end.


(** C5 as stated: after a successful call, the most recent line has the
    time range and the description. *)
Definition recent_line_has_entry : Prop :=
  forall (F : Type) (float_json : F -> str) (self : LogManager)
         (e : entry F) (w w' : world),
    append_entry float_json self e w = (Ok true, w') ->
    exists line,
      fst (read_recent_logs self 1 w') = Ok [line]
      /\ contains (time_range (start_dt e) (end_dt e)) line = true
      /\ contains (description e) line = true.

(** C6 as stated: every call adds exactly one line to those of the file,
    the described one. *)
Definition one_described_line_appended : Prop :=
  forall (F : Type) (float_json : F -> str) (self : LogManager)
         (e : entry F) (w : world),
    readlines (log_text (snd (append_entry float_json self e w)) self)
    = readlines (log_text w self) ++ [described_line float_json e ++ [LF]].

(** C7 as stated: no entry in a file just created, and as many entries
    as successful calls with a description free of line feeds. *)
Definition stats_count_calls : Prop :=
  forall (F : Type) (float_json : F -> str) (self : LogManager)
         (es : list (entry F)) (w0 w : world),
    files w0 !! log_file_path self = None ->
    Forall (fun e => ~ In LF (description e)) es ->
    reported_entries self (snd (_create_log_file self w0)) = Some O
    /\ (appended float_json self (snd (_create_log_file self w0)) es w ->
        reported_entries self w = Some (length es)).

(** Sample data: the times of the document's example, a log file, and
    worlds with it. *)
Definition t_start : datetime :=
  {| year := 2024; month := 1; day := 2; hour := 3; minute := 4; second := 5;
     microsecond := 0 |}.

Definition t_end : datetime :=
  {| year := 2024; month := 1; day := 2; hour := 3; minute := 4; second := 10;
     microsecond := 0 |}.

Definition sample_log : Path := {| root := false; parts := [lit "logs"; lit "action.log"] |}.

Definition sample_manager : LogManager := {| log_file_path := sample_log |}.

Definition empty_world : world :=
  {| files := ∅; clock := fun _ => t_start; tick := O; console := [] |}.

(** The world after the constructor made the log file. *)
Definition fresh_world : world := snd (init sample_log empty_world).

(** Floats for the samples: one value, written [0.5]. *)
Definition half_json (x : unit) : str := lit "0.5".

Definition sample_entry : entry unit :=
  {| start_dt := t_start; end_dt := t_end;
     description := lit "person waves hand.";
     bbox_info := Some [(lit "bbox_normalized", JList [JFloat tt; JFloat tt]);
                        (lit "analysis_mode", JStr (lit "bbox_based"));
                        (lit "duration_sec", JInt 5)] |}.

Definition plain_entry : entry unit :=
  {| start_dt := t_start; end_dt := t_end;
     description := lit "person waves hand."; bbox_info := None |}.

(** A description of two lines, and one with a carriage return. *)
Definition two_line_entry : entry unit :=
  {| start_dt := t_start; end_dt := t_end;
     description := lit "a" ++ [LF] ++ lit "b"; bbox_info := None |}.

Definition carriage_return_entry : entry unit :=
  {| start_dt := t_start; end_dt := t_end;
     description := lit "a" ++ [CR] ++ lit "b"; bbox_info := None |}.

(** A world whose log file has one entry and may not be written. *)
Definition read_only_world : world :=
  {| files := {[ sample_log :=
                   {| data := header t_start
                              ++ written_line half_json plain_entry ++ [LF];
                      readable := true; writable := false; mtime := t_start |} ]};
     clock := fun _ => t_end; tick := O; console := [] |}.

End LogStated.

Module ExtraStated.
Import LogManager LogStated.

(** The command with the flag of the segmentation mode put in, after
    [--use_box]. *)
Definition with_sam2_flag (cmd : list str) : list str :=
  take 8 cmd ++ [lit "--use_sam2"] ++ drop 8 cmd.

(** The argument at a position replaced, when a new one is given. *)
Definition set_arg (i : nat) (x : option str) (cmd : list str) : list str :=
  match x with
  | Some v => <[i := v]> cmd
  | None => cmd
  end.

(** Whether the log file can be written: there is none yet, or the one
    there is writable. *)
Definition can_write (self : LogManager) (w : world) : bool :=
  match files w !! log_file_path self with
  | Some f => writable f
  | None => true
  end.

(** The entries of a log text, trimmed, in the order of the file. *)
Definition entries (content : str) : list str :=
  map strip (List.filter is_entry (readlines content)).

(** The text a run of calls writes: their lines, one after the other. *)
Definition written_text {F} (float_json : F -> str) (es : list (entry F)) : str :=
  concat (map (fun e => written_line float_json e ++ [LF]) es).



(** The world one reading of the clock later. *)
Definition ticked (w : world) : world :=
  {| files := files w; clock := clock w; tick := S (tick w); console := console w |}.


(** Date arithmetic that fails, as on a duration that is no number. *)
Definition failing_add_seconds (t : datetime) (n : Z) : result datetime exn :=
  Error (ValueError (lit "cannot convert float NaN to integer")).

(** A log file named like its own backup. *)
Definition backup_named_log : Path :=
  {| root := false; parts := [lit "logs"; lit "action.bak.txt"] |}.


(** Where [backup_logs] puts the copy. *)
Definition backup_target (self : LogManager) (backup_suffix : option str) (w : world)
    : Path :=
  backup_path (log_file_path self) (backup_suffix_of backup_suffix w).

(** Whether a backup can be made: the log file is there and may be read,
    the suffix has no slash, the name of the log file is not empty, the
    copy would not be the log file itself, and no unwritable file is where
    the copy goes. *)
Definition backup_possible (self : LogManager) (backup_suffix : option str)
    (w : world) : bool :=
  match files w !! log_file_path self with
  | None => false
  | Some f =>
      negb (contains (lit "/") (backup_suffix_of backup_suffix w))
      && truthy (path_name (log_file_path self))
      && negb (bool_decide (log_file_path self = backup_target self backup_suffix w))
      && readable f
      && match files w !! backup_target self backup_suffix w with
         | Some g => writable g
         | None => true
         end
  end.

(** The sample log with two entries. *)
Definition two_entry_world : world :=
  snd (append_entry half_json sample_manager plain_entry
         (snd (append_entry half_json sample_manager sample_entry fresh_world))).

(** A world whose log file has one entry and may not be read. *)
Definition unreadable_world : world :=
  {| files := {[ sample_log :=
                   {| data := header t_start
                              ++ written_line half_json plain_entry ++ [LF];
                      readable := false; writable := true; mtime := t_start |} ]};
     clock := fun _ => t_end; tick := O; console := [] |}.

End ExtraStated.

(** * Properties *)

(** ** Strings *)

Lemma startswith_app (p t : str) : startswith (p ++ t) p = true.
Proof.
  induction p as [|c p IH]; simpl; [reflexivity|].
  rewrite N.eqb_refl. exact IH.
Qed.

Lemma startswith_inv (s p : str) :
  startswith s p = true -> s = p ++ drop (length p) s.
Proof.
  revert s. induction p as [|c p IH]; intros s H; simpl in *.
  - reflexivity.
  - destruct s as [|d s]; [discriminate|].
    apply andb_true_iff in H as [Hc Hs]. apply N.eqb_eq in Hc. subst d.
    simpl. f_equal. apply IH, Hs.
Qed.

Lemma partition_first_prefix (sub s : str) :
  startswith s sub = true ->
  partition_first sub s = Some ([], drop (length sub) s).
Proof. intros H. destruct s; simpl; rewrite H; reflexivity. Qed.

Lemma partition_first_sound (sub s before after : str) :
  partition_first sub s = Some (before, after) -> s = before ++ sub ++ after.
Proof.
  revert before after. induction s as [|c s IH]; intros before after; simpl.
  - destruct (startswith [] sub) eqn:E; [|discriminate].
    intros [= <- <-]. apply startswith_inv in E. exact E.
  - destruct (startswith (c :: s) sub) eqn:E.
    + intros [= <- <-]. apply startswith_inv in E. exact E.
    + destruct (partition_first sub s) as [[b a]|]; [|discriminate].
      intros [= <- <-]. simpl. f_equal. apply IH. reflexivity.
Qed.

Lemma partition_first_complete (sub pre post : str) :
  exists before after, partition_first sub (pre ++ sub ++ post) = Some (before, after).
Proof.
  induction pre as [|c pre IH]; simpl.
  - exists [], (drop (length sub) (sub ++ post)).
    apply partition_first_prefix, startswith_app.
  - destruct (startswith (c :: pre ++ sub ++ post) sub); [eauto|].
    destruct IH as (b & a & ->). eauto.
Qed.

(** [contains] decides the occurrence of [sub] somewhere in [s]. *)
Lemma contains_spec (sub s : str) :
  contains sub s = true <-> exists pre post, s = pre ++ sub ++ post.
Proof.
  unfold contains. split.
  - destruct (partition_first sub s) as [[b a]|] eqn:E; [|discriminate].
    intros _. exists b, a. apply partition_first_sound, E.
  - intros (pre & post & ->).
    destruct (partition_first_complete sub pre post) as (b & a & ->). reflexivity.
Qed.

Lemma truthy_true (s : str) : truthy s = true <-> s <> [].
Proof. destruct s; simpl; split; congruence. Qed.

Lemma truthy_false (s : str) : truthy s = false <-> s = [].
Proof. destruct s; simpl; split; congruence. Qed.

(** ** Extraction of the description *)

Section Extraction.
Import DAMAnalyzer AnalyzerStated.

(** The search of the noise pattern finds one of its four alternatives
    somewhere in the line. *)
Lemma re_search_noise_spec (l : str) :
  re_search_noise l = true <->
  exists pat pre post, In pat noise_patterns /\ l = pre ++ pat ++ post.
Proof.
  unfold re_search_noise. rewrite existsb_exists. split.
  - intros (pat & Hin & Hc). apply contains_spec in Hc as (pre & post & ->). eauto.
  - intros (pat & pre & post & Hin & ->). exists pat. split; [exact Hin|].
    apply contains_spec. eauto.
Qed.

(** What the loop takes from a marker line: the text after the marker. *)
Lemma scan_line_marker (desc line : str) :
  startswith line marker = true ->
  scan_line desc line = strip (drop (length marker) line).
Proof.
  intros H. unfold scan_line, split_max1. rewrite H.
  rewrite (partition_first_prefix _ _ H). reflexivity.
Qed.

Lemma scan_line_other (desc line : str) :
  startswith line marker = false -> scan_line desc line = desc.
Proof. intros H. unfold scan_line. rewrite H. reflexivity. Qed.

Lemma scan_no_marker (lines : list str) (desc : str) :
  Forall (fun l => startswith l marker = false) lines ->
  fold_left scan_line lines desc = desc.
Proof.
  revert desc. induction lines as [|l lines IH]; intros desc H; simpl.
  - reflexivity.
  - inversion H as [|? ? Hl Hrest]; subst.
    rewrite (scan_line_other _ _ Hl). apply IH, Hrest.
Qed.

(** Later lines win: the loop ends with the text of the last marker line. *)
Lemma scan_last_marker (pre post : list str) (l desc : str) :
  startswith l marker = true ->
  Forall (fun l' => startswith l' marker = false) post ->
  fold_left scan_line (pre ++ l :: post) desc = strip (drop (length marker) l).
Proof.
  intros Hl Hpost. rewrite fold_left_app. simpl.
  rewrite (scan_line_marker _ _ Hl). apply scan_no_marker, Hpost.
Qed.

Lemma last_filter_split {A} (P : A -> bool) (pre post : list A) (x : A) :
  P x = true -> Forall (fun y => P y = false) post ->
  last (List.filter P (pre ++ x :: post)) = Some x.
Proof.
  intros Hx Hpost. rewrite List.filter_app. simpl. rewrite Hx.
  assert (List.filter P post = []) as ->.
  { induction Hpost as [|y post Hy _ IH]; simpl; [reflexivity|]. rewrite Hy. exact IH. }
  apply last_snoc.
Qed.

Lemma filter_none {A} (P : A -> bool) (l : list A) :
  Forall (fun y => P y = false) l -> List.filter P l = [].
Proof.
  induction 1 as [|y l Hy _ IH]; simpl; [reflexivity|]. rewrite Hy. exact IH.
Qed.

Lemma is_clean_false (l : str) :
  is_clean l = false <-> strip l = [] \/ re_search_noise l = true.
Proof.
  unfold is_clean. rewrite andb_false_iff, truthy_false, negb_false_iff. reflexivity.
Qed.

Lemma is_clean_true (l : str) :
  is_clean l = true <-> strip l <> [] /\ re_search_noise l = false.
Proof.
  unfold is_clean. rewrite andb_true_iff, truthy_true, negb_true_iff. reflexivity.
Qed.

(** C1, as stated, fails: a marker line with nothing after the marker
    gives an empty description, which the function takes for none and
    replaces by the fallback line, here the marker itself. *)
Lemma marker_text_returned_fails :
  ~ marker_text_returned (lit "Description:").
Proof.
  intros H.
  specialize (H [] (lit "Description:") [] eq_refl eq_refl ltac:(constructor)).
  vm_compute in H. discriminate H.
Qed.

(** C1, amended: when the output has a line starting with [Description:],
    and the text after the marker on the last such line is not blank, the
    result is that text, trimmed; when it is blank, the result is the one
    of the fallback. *)
Theorem extract_description_marker (raw : str) (pre post : list str) (l : str) :
  splitlines raw = pre ++ l :: post ->
  startswith l marker = true ->
  Forall (fun l' => startswith l' marker = false) post ->
  (strip (drop (length marker) l) <> [] ->
   _extract_description raw = strip (drop (length marker) l))
  /\ (strip (drop (length marker) l) = [] ->
      _extract_description raw =
      match last (List.filter is_clean (splitlines raw)) with
      | Some c => strip c
      | None => strip raw
      end).
Proof.
  intros Hsplit Hl Hpost. unfold _extract_description.
  set (fallback := match last (List.filter is_clean (splitlines raw)) with
                   | Some c => strip c
                   | None => strip raw
                   end).
  rewrite Hsplit, (scan_last_marker _ _ _ _ Hl Hpost). split; intros Hd.
  - apply truthy_true in Hd. rewrite Hd. reflexivity.
  - rewrite Hd. reflexivity.
Qed.

Lemma extract_description_marker_witness :
  _extract_description (lit "frame loading" ++ [LF] ++ lit "Description: person waves hand.")
  = lit "person waves hand.".
Proof.
  refine (proj1 (extract_description_marker _ [lit "frame loading"] []
                   (lit "Description: person waves hand.") _ _ _) _).
  - reflexivity.
  - reflexivity.
  - constructor.
  - vm_compute. discriminate.
Defined.

(** C2: without a marker line, the result is the last line that is neither
    blank nor noise, trimmed; and when every line is blank or noise, it is
    the whole output, trimmed. *)
Theorem extract_description_fallback (raw : str) :
  Forall (fun l => startswith l marker = false) (splitlines raw) ->
  (forall pre l post,
      splitlines raw = pre ++ l :: post ->
      strip l <> [] -> re_search_noise l = false ->
      Forall (fun l' => strip l' = [] \/ re_search_noise l' = true) post ->
      _extract_description raw = strip l)
  /\ (Forall (fun l => strip l = [] \/ re_search_noise l = true) (splitlines raw) ->
      _extract_description raw = strip raw).
Proof.
  intros Hno. unfold _extract_description.
  rewrite (scan_no_marker _ _ Hno). simpl. split.
  - intros pre l post Hsplit Hnb Hnn Hpost. rewrite Hsplit.
    rewrite (last_filter_split is_clean pre post l).
    + reflexivity.
    + apply is_clean_true. split; assumption.
    + eapply Forall_impl; [exact Hpost|]. intros y Hy. apply is_clean_false, Hy.
  - intros Hall. rewrite filter_none; [reflexivity|].
    eapply Forall_impl; [exact Hall|]. intros y Hy. apply is_clean_false, Hy.
Qed.

Lemma extract_description_fallback_witness :
  _extract_description (lit "Loading checkpoint" ++ [LF] ++ lit " hello " ++ [LF]
                        ++ lit "UserWarning: x")
  = lit "hello"
  /\ _extract_description (lit "frame loading 1/8" ++ [LF] ++ lit "  ")
     = lit "frame loading 1/8".
Proof.
  split.
  - refine (proj1 (extract_description_fallback _ _)
              [lit "Loading checkpoint"] (lit " hello ") [lit "UserWarning: x"] _ _ _ _).
    + vm_compute. repeat constructor.
    + reflexivity.
    + vm_compute. discriminate.
    + reflexivity.
    + constructor; [right; reflexivity | constructor].
  - refine (proj2 (extract_description_fallback _ _) _).
    + vm_compute. repeat constructor.
    + vm_compute. constructor; [right; reflexivity|].
      constructor; [left; reflexivity | constructor].
Defined.

End Extraction.

(** ** Invocation of the external process *)

Section Invocation.
Import DAMAnalyzer AnalyzerStated.
Context {F : Type}.
Variable float_str : F -> str.
Variable sys_executable : str.
Variable subprocess_run : list str -> result CompletedProcess exn.

Local Abbreviation analyze := (analyze_video float_str sys_executable subprocess_run).

(** C3: when the external process exits with a code other than zero, or
    the call fails on the way with an exception, the analysis returns no
    result, and raises nothing, in either mode. *)
Theorem analyze_failure_returns_none (self : Analyzer F) (video : Path)
    (bbox : list F) (use_sam2 : bool) (out : list message) :
  (forall cmd, match subprocess_run cmd with
               | Ok r => returncode r <> 0%Z
               | Error e => is_Exception e = true
               end) ->
  exists out', analyze self video bbox use_sam2 out = (Ok None, out').
Proof.
  intros Hfail. unfold analyze_video.
  destruct use_sam2; unfold analyze_with_sam2, analyze_with_bbox;
    unfold try_except, bind, run, print, raise, ret;
    match goal with |- context [subprocess_run ?cmd] =>
      specialize (Hfail cmd); destruct (subprocess_run cmd) as [r|e]
    end.
  - apply Z.eqb_neq in Hfail. rewrite Hfail. simpl. eauto.
  - rewrite Hfail. eauto.
  - apply Z.eqb_neq in Hfail. rewrite Hfail. simpl. eauto.
  - rewrite Hfail. eauto.
Qed.

(** C8, amended: on exit code zero the description is extracted from the
    standard output whenever that is not empty, and from the standard
    error only when the standard output is empty. *)
Theorem analyze_reads_stdout_first (self : Analyzer F) (video : Path)
    (bbox : list F) (use_sam2 : bool) (r : CompletedProcess) (out : list message) :
  (forall cmd, subprocess_run cmd = Ok r) ->
  returncode r = 0%Z ->
  (stdout r <> [] ->
   fst (analyze self video bbox use_sam2 out) = Ok (Some (_extract_description (stdout r))))
  /\ (stdout r = [] ->
      fst (analyze self video bbox use_sam2 out) = Ok (Some (_extract_description (stderr r)))).
Proof.
  intros Hrun Hzero.
  assert (fst (analyze self video bbox use_sam2 out)
          = Ok (Some (_extract_description (str_or (stdout r) (stderr r))))) as ->.
  { unfold analyze_video.
    destruct use_sam2; unfold analyze_with_sam2, analyze_with_bbox;
      unfold try_except, bind, run, print, raise, ret;
      rewrite Hrun, Hzero; reflexivity. }
  unfold str_or. split; intros H.
  - apply truthy_true in H. rewrite H. reflexivity.
  - rewrite H. reflexivity.
Qed.

End Invocation.

Section InvocationExamples.
Import DAMAnalyzer AnalyzerStated.

Lemma analyze_failure_returns_none_witness :
  exists out',
    analyze_video sample_float_str (lit "python3") (fun _ => Ok failed_run)
      sample_analyzer sample_video [tt; tt; tt; tt] false []
    = (Ok None, out').
Proof.
  apply (analyze_failure_returns_none sample_float_str (lit "python3")
           (fun _ => Ok failed_run)).
  intros cmd. simpl. lia.
Defined.

(** C8, as stated, fails: with progress lines on the standard output and
    the description on the standard error, the result is taken from the
    standard output. *)
Lemma extracted_from_carrying_stream_fails : ~ extracted_from_carrying_stream.
Proof.
  intros H.
  specialize (H unit sample_float_str (lit "python3")
                (fun _ => Ok description_on_stderr)
                sample_analyzer sample_video [tt; tt; tt; tt] false
                description_on_stderr [] (fun _ => eq_refl) eq_refl
                (stderr description_on_stderr) (stdout description_on_stderr)
                (or_intror (conj eq_refl eq_refl)) eq_refl eq_refl).
  vm_compute in H. discriminate H.
Qed.

Lemma analyze_reads_stdout_first_witness :
  fst (analyze_video sample_float_str (lit "python3")
         (fun _ => Ok description_on_stderr)
         sample_analyzer sample_video [tt; tt; tt; tt] false [])
  = Ok (Some (lit "Loading checkpoint")).
Proof.
  refine (proj1 (analyze_reads_stdout_first sample_float_str (lit "python3")
                   (fun _ => Ok description_on_stderr)
                   sample_analyzer sample_video [tt; tt; tt; tt] false
                   description_on_stderr [] _ _) _).
  - intros cmd. reflexivity.
  - reflexivity.
  - vm_compute. discriminate.
Defined.

End InvocationExamples.

(** ** Trimming *)

Lemma lstrip_app (a b : str) :
  lstrip (a ++ b) = if forallb is_space a then lstrip b else lstrip a ++ b.
Proof.
  induction a as [|c a IH]; simpl; [reflexivity|].
  destruct (is_space c); simpl; [exact IH | reflexivity].
Qed.

Lemma lstrip_all_space (a : str) : forallb is_space a = true -> lstrip a = [].
Proof.
  induction a as [|c a IH]; simpl; [reflexivity|].
  destruct (is_space c); simpl; [exact IH | discriminate].
Qed.

Lemma forallb_rev {A} (P : A -> bool) (l : list A) :
  forallb P (rev l) = forallb P l.
Proof.
  induction l as [|x l IH]; simpl; [reflexivity|].
  rewrite forallb_app, IH. simpl. rewrite andb_true_r. apply andb_comm.
Qed.

Lemma rstrip_app (s t : str) :
  rstrip (s ++ t) = if forallb is_space t then rstrip s else s ++ rstrip t.
Proof.
  unfold rstrip. rewrite rev_app_distr, lstrip_app, forallb_rev.
  destruct (forallb is_space t); [reflexivity|].
  rewrite rev_app_distr, rev_involutive. reflexivity.
Qed.

Lemma rstrip_all_space (s : str) : forallb is_space s = true -> rstrip s = [].
Proof.
  intros H. unfold rstrip. rewrite lstrip_all_space; [reflexivity|].
  rewrite forallb_rev. exact H.
Qed.

Lemma rstrip_one (c : N) : is_space c = false -> rstrip [c] = [c].
Proof. intros H. unfold rstrip. simpl. rewrite H. reflexivity. Qed.

(** A text that ends with a character kept by the trimming is kept. *)
Lemma rstrip_snoc (s : str) (c : N) :
  is_space c = false -> rstrip (s ++ [c]) = s ++ [c].
Proof.
  intros H. rewrite rstrip_app. simpl. rewrite H. simpl.
  rewrite (rstrip_one _ H). reflexivity.
Qed.

Lemma rstrip_cons (c : N) (s : str) :
  is_space c = false -> rstrip (c :: s) = c :: rstrip s.
Proof.
  intros H. change (c :: s) with ([c] ++ s). rewrite rstrip_app.
  destruct (forallb is_space s) eqn:E.
  - rewrite (rstrip_one _ H), (rstrip_all_space _ E). reflexivity.
  - reflexivity.
Qed.

Lemma rstrip_keeps_prefix (s t : str) :
  Forall (fun c => is_space c = false) s -> rstrip (s ++ t) = s ++ rstrip t.
Proof.
  induction 1 as [|c s Hc _ IH]; simpl; [reflexivity|].
  rewrite (rstrip_cons _ _ Hc), IH. reflexivity.
Qed.

Lemma strip_cons (c : N) (s : str) :
  is_space c = false -> strip (c :: s) = c :: rstrip s.
Proof. intros H. unfold strip. simpl. rewrite H. apply rstrip_cons, H. Qed.

Lemma rstrip_newline (s : str) : rstrip (s ++ [LF]) = rstrip s.
Proof. rewrite rstrip_app. reflexivity. Qed.

(** ** Lines of a text file *)

Section Lines.
Import LogManager LogStated.

Lemma no_newline_app (a b : str) :
  no_newline (a ++ b) = no_newline a && no_newline b.
Proof. apply forallb_app. Qed.

Lemma no_newline_cons (c : N) (s : str) :
  no_newline (c :: s) = true -> (c =? CR) = false /\ (c =? LF) = false /\ no_newline s = true.
Proof.
  unfold no_newline. simpl. rewrite !andb_true_iff, !negb_true_iff. tauto.
Qed.

Lemma readlines_nonempty (c : N) (s : str) : readlines (c :: s) <> [].
Proof.
  simpl. destruct (c =? CR).
  - destruct s as [|d s]; [discriminate|]. destruct (d =? LF); discriminate.
  - destruct (c =? LF); [discriminate|]. destruct (readlines s); discriminate.
Qed.

(** A text without line ends, closed by a line feed, is one line. *)
Lemma readlines_line (s : str) :
  no_newline s = true -> readlines (s ++ [LF]) = [s ++ [LF]].
Proof.
  induction s as [|c s IH]; intros H; [reflexivity|].
  apply no_newline_cons in H as (Hcr & Hlf & Hs).
  simpl. rewrite Hcr, Hlf, (IH Hs). reflexivity.
Qed.

Lemma readlines_after_newline_step (a b : str) :
  (readlines (a ++ LF :: b) = readlines (a ++ [LF]) ++ readlines b)
  /\ (forall c, readlines ((c :: a) ++ LF :: b)
               = readlines ((c :: a) ++ [LF]) ++ readlines b).
Proof.
  induction a as [|d a [IHa IHda]].
  - split; [reflexivity|]. intros c. simpl.
    destruct (c =? CR); [reflexivity|]. destruct (c =? LF); reflexivity.
  - split; [apply IHda|]. intros c.
    change ((c :: d :: a) ++ LF :: b) with (c :: (d :: a) ++ LF :: b).
    change ((c :: d :: a) ++ [LF]) with (c :: (d :: a) ++ [LF]).
    cbn [readlines]. destruct (c =? CR).
    + cbn [app]. destruct (d =? LF).
      * rewrite IHa. reflexivity.
      * change (d :: a ++ LF :: b) with ((d :: a) ++ LF :: b).
        change (d :: a ++ [LF]) with ((d :: a) ++ [LF]).
        rewrite IHda. reflexivity.
    + destruct (c =? LF).
      * rewrite IHda. reflexivity.
      * rewrite IHda.
        destruct (readlines ((d :: a) ++ [LF])) as [|l ls] eqn:E.
        -- exfalso. exact (readlines_nonempty d (a ++ [LF]) E).
        -- reflexivity.
Qed.

Lemma ends_with_newline_inv (s : str) :
  ends_with_newline s = true -> s = [] \/ exists s', s = s' ++ [LF].
Proof.
  unfold ends_with_newline. destruct (last s) as [c|] eqn:E.
  - intros H. apply N.eqb_eq in H. subst c. right.
    apply last_Some in E. exact E.
  - intros _. left. apply last_None in E. exact E.
Qed.

Lemma ends_with_newline_snoc (s : str) : ends_with_newline (s ++ [LF]) = true.
Proof. unfold ends_with_newline. rewrite last_snoc. reflexivity. Qed.

(** What follows a complete line is read on its own. *)
Lemma readlines_app (a b : str) :
  ends_with_newline a = true -> readlines (a ++ b) = readlines a ++ readlines b.
Proof.
  intros H. apply ends_with_newline_inv in H as [-> | [a' ->]]; [reflexivity|].
  rewrite <- app_assoc. apply readlines_after_newline_step.
Qed.

(** Appending a line without line ends inside adds that one line. *)
Lemma readlines_append_line (a s : str) :
  ends_with_newline a = true -> no_newline s = true ->
  readlines (a ++ s ++ [LF]) = readlines a ++ [s ++ [LF]].
Proof.
  intros Ha Hs. rewrite (readlines_app _ _ Ha), (readlines_line _ Hs). reflexivity.
Qed.

Lemma count_entries_append_line (a s : str) :
  ends_with_newline a = true -> no_newline s = true ->
  count_entries (a ++ s ++ [LF])
  = (count_entries a + if is_entry (s ++ [LF]) then 1 else 0)%nat.
Proof.
  intros Ha Hs. unfold count_entries.
  rewrite (readlines_append_line _ _ Ha Hs), List.filter_app, length_app. simpl.
  destruct (is_entry (s ++ [LF])); reflexivity.
Qed.

End Lines.

(** ** Texts the log manager writes *)

Section Texts.
Import LogManager LogStated.

Lemma graphic_not_space (c : N) : graphic c = true -> is_space c = false.
Proof.
  unfold graphic, is_space. intros H. apply andb_true_iff in H as [H1 H2].
  apply N.leb_le in H1, H2.
  repeat match goal with
         | |- context [?a <=? ?b] => destruct (N.leb_spec a b)
         | |- context [?a =? ?b] => destruct (N.eqb_spec a b)
         end; simpl; try reflexivity; lia.
Qed.

Lemma graphic_no_newline (s : str) : forallb graphic s = true -> no_newline s = true.
Proof.
  unfold no_newline. induction s as [|c s IH]; simpl; [reflexivity|].
  intros H. apply andb_true_iff in H as [Hc Hs]. rewrite (IH Hs), andb_true_r.
  unfold graphic in Hc. apply andb_true_iff in Hc as [H1 H2].
  apply N.leb_le in H1, H2. unfold LF, CR.
  destruct (N.eqb_spec c 10), (N.eqb_spec c 13); simpl; try reflexivity; lia.
Qed.

Lemma graphic_all_not_space (s : str) :
  forallb graphic s = true -> Forall (fun c => is_space c = false) s.
Proof.
  induction s as [|c s IH]; simpl; intros H; constructor;
    apply andb_true_iff in H as [Hc Hs]; [apply graphic_not_space, Hc | apply IH, Hs].
Qed.

Lemma digit_range (n : N) : 48 <= digit n <= 57.
Proof.
  unfold digit.
  assert (n mod 10 < 10) as H by (apply N.mod_upper_bound; discriminate).
  revert H. generalize (n mod 10). intros m H. lia.
Qed.

Lemma digit_graphic (n : N) : graphic (digit n) = true.
Proof.
  unfold graphic. pose proof (digit_range n).
  apply andb_true_iff. split; apply N.leb_le; lia.
Qed.

Lemma digit_not_hash (n : N) : (digit n =? 35) = false.
Proof. pose proof (digit_range n). apply N.eqb_neq. lia. Qed.

(** The time range, written out: [YYYY-MM-DD-HHMMSS~HHMMSS]. *)
Lemma time_range_format (s e : datetime) :
  time_range s e
  = pad4 (year s) ++ lit "-" ++ pad2 (month s) ++ lit "-" ++ pad2 (day s) ++ lit "-"
    ++ pad2 (hour s) ++ pad2 (minute s) ++ pad2 (second s)
    ++ lit "~" ++ pad2 (hour e) ++ pad2 (minute e) ++ pad2 (second e).
Proof. reflexivity. Qed.

(** The example of the document. *)
Lemma time_range_example : time_range t_start t_end = lit "2024-01-02-030405~030410".
Proof. reflexivity. Qed.

Lemma time_range_head (s e : datetime) :
  exists rest, time_range s e = digit (year s / 1000) :: rest.
Proof. rewrite time_range_format. eexists. reflexivity. Qed.

Lemma time_range_graphic (s e : datetime) : forallb graphic (time_range s e) = true.
Proof.
  rewrite time_range_format. unfold pad4, pad2.
  cbn [app lit list_ascii_of_string map forallb].
  rewrite !digit_graphic. reflexivity.
Qed.


Lemma isoformat_graphic (t : datetime) : forallb graphic (isoformat t) = true.
Proof.
  unfold isoformat, pad4, pad2, pad6. destruct (microsecond t =? 0);
    cbn [app lit list_ascii_of_string map forallb];
    rewrite !digit_graphic; reflexivity.
Qed.

(** *** JSON texts have no line end *)

Lemma digits_from_no_newline (fuel : nat) (n : N) (acc : str) :
  no_newline acc = true -> no_newline (digits_from fuel n acc) = true.
Proof.
  revert n acc. induction fuel as [|fuel IH]; intros n acc Hacc; simpl; [exact Hacc|].
  assert (no_newline ((48 + n mod 10) :: acc) = true) as Hstep.
  { change (48 + n mod 10) with (digit n).
    change (no_newline ([digit n] ++ acc) = true).
    rewrite no_newline_app, Hacc, andb_true_r.
    apply graphic_no_newline. simpl. rewrite digit_graphic. reflexivity. }
  destruct (n <? 10); [exact Hstep | apply IH, Hstep].
Qed.

Lemma str_of_Z_no_newline (z : Z) : no_newline (str_of_Z z) = true.
Proof.
  unfold str_of_Z, str_of_N. destruct (z <? 0)%Z.
  - rewrite no_newline_app. rewrite digits_from_no_newline; reflexivity.
  - apply digits_from_no_newline. reflexivity.
Qed.

Lemma hex_digit_graphic (n : N) : graphic (hex_digit n) = true.
Proof.
  unfold graphic, hex_digit.
  assert (n mod 16 < 16) as H by (apply N.mod_upper_bound; discriminate).
  revert H. generalize (n mod 16). intros m H.
  destruct (N.ltb_spec m 10); apply andb_true_iff; split; apply N.leb_le; lia.
Qed.

Lemma json_escape_no_newline (c : N) : no_newline (json_escape c) = true.
Proof.
  unfold json_escape.
  repeat match goal with
         | |- context [if ?a =? ?b then _ else _] => destruct (N.eqb_spec a b); [reflexivity|]
         end.
  destruct (N.ltb_spec c 32).
  - rewrite no_newline_app. apply andb_true_iff. split; [reflexivity|].
    apply graphic_no_newline. simpl. rewrite !hex_digit_graphic. reflexivity.
  - unfold no_newline, LF, CR. simpl.
    destruct (N.eqb_spec c 10), (N.eqb_spec c 13); try reflexivity; lia.
Qed.

Lemma json_string_no_newline (s : str) : no_newline (json_string s) = true.
Proof.
  unfold json_string. rewrite !no_newline_app.
  assert (no_newline (flat_map json_escape s) = true) as ->; [|reflexivity].
  induction s as [|c s IH]; simpl; [reflexivity|].
  rewrite no_newline_app, json_escape_no_newline, IH. reflexivity.
Qed.

Lemma join_str_no_newline (sep : str) (parts : list str) :
  no_newline sep = true -> Forall (fun x => no_newline x = true) parts ->
  no_newline (join_str sep parts) = true.
Proof.
  intros Hsep. induction 1 as [|x parts Hx Hparts IH]; [reflexivity|].
  destruct parts as [|y parts]; [exact Hx|].
  change (join_str sep (x :: y :: parts)) with (x ++ sep ++ join_str sep (y :: parts)).
  rewrite !no_newline_app, Hx, Hsep, IH. reflexivity.
Qed.

Section JsonLines.
Context {F : Type}.
Variable float_json : F -> str.
Hypothesis float_json_line : forall x, no_newline (float_json x) = true.

(** Whatever the value, its JSON text is on one line. *)
Lemma json_dumps_no_newline (v : json F) : no_newline (json_dumps float_json v) = true.
Proof.
  revert v. fix IH 1. intros v. destruct v as [|b|z|x|s|items|members].
  - reflexivity.
  - destruct b; reflexivity.
  - apply str_of_Z_no_newline.
  - apply float_json_line.
  - apply json_string_no_newline.
  - cbn [json_dumps]. rewrite !no_newline_app.
    rewrite join_str_no_newline; [reflexivity | reflexivity |].
    induction items as [|v items IHitems]; constructor; [apply IH | exact IHitems].
  - cbn [json_dumps]. rewrite !no_newline_app.
    rewrite join_str_no_newline; [reflexivity | reflexivity |].
    induction members as [|[k v] members IHmembers]; constructor; [|exact IHmembers].
    cbn [fst snd]. rewrite !no_newline_app, json_string_no_newline, IH. reflexivity.
Qed.

(** The line a call writes has no line end inside when the description
    has none, and it is an entry. *)
Lemma written_line_no_newline (e : entry F) :
  no_newline (description e) = true -> no_newline (written_line float_json e) = true.
Proof.
  intros Hd. unfold written_line. rewrite !no_newline_app.
  rewrite (graphic_no_newline _ (time_range_graphic _ _)), Hd.
  destruct (dict_truthy (bbox_info e)); [|reflexivity].
  rewrite no_newline_app. unfold dumps_dict.
  destruct (bbox_info e); [rewrite json_dumps_no_newline|]; reflexivity.
Qed.

End JsonLines.

Lemma written_line_is_entry {F} (float_json : F -> str) (e : entry F) :
  is_entry (written_line float_json e ++ [LF]) = true.
Proof.
  unfold is_entry, written_line.
  destruct (time_range_head (start_dt e) (end_dt e)) as [rest ->].
  cbn [app startswith lit list_ascii_of_string map N_of_ascii].
  rewrite strip_cons by apply graphic_not_space, digit_graphic.
  apply andb_true_iff. split; [reflexivity|].
  change (N_of_ascii "#") with 35. rewrite N.eqb_sym, digit_not_hash. reflexivity.
Qed.

End Texts.

(** ** The operations on the log file, case by case *)

Section OperationCases.
Import LogManager LogStated.

Ltac io_unfold :=
  unfold _create_log_file, append_entry, append_log, read_recent_logs, get_log_stats,
    clear_logs, backup_logs, init, try_except, bind, open_w, open_a, open_r, f_write,
    f_readlines, copy2, stat, path_exists, now, LogManager.print, ret, raise, lift.

Ltac io_simpl :=
  repeat first
    [ rewrite lookup_insert_eq
    | progress cbn [fst snd files clock tick console set_files data readable writable
                    mtime log_file_path is_Exception negb] ].

Lemma create_log_file_new (self : LogManager) (w : world) :
  files w !! log_file_path self = None ->
  _create_log_file self w
  = (Ok tt,
     {| files := <[log_file_path self :=
                     {| data := header (clock w (tick w)); readable := true;
                        writable := true; mtime := clock w (S (tick w)) |}]> (files w);
        clock := clock w; tick := S (tick w);
        console := console w ++ [Created (log_file_path self)] |}).
Proof.
  intros H. io_unfold. rewrite H. io_simpl.
  rewrite !insert_insert_eq. unfold header. rewrite <- !app_assoc. reflexivity.
Qed.

Lemma create_log_file_writable (self : LogManager) (w : world) (f : file) :
  files w !! log_file_path self = Some f -> writable f = true ->
  _create_log_file self w
  = (Ok tt,
     {| files := <[log_file_path self :=
                     {| data := header (clock w (tick w)); readable := readable f;
                        writable := true; mtime := clock w (S (tick w)) |}]> (files w);
        clock := clock w; tick := S (tick w);
        console := console w ++ [Created (log_file_path self)] |}).
Proof.
  intros H Hw. io_unfold. rewrite H, Hw. io_simpl.
  rewrite !insert_insert_eq. unfold header. rewrite <- !app_assoc. reflexivity.
Qed.

(** A log file that may not be written stays as it is, and the failure
    stays inside [_create_log_file]. *)
Lemma create_log_file_denied (self : LogManager) (w : world) (f : file) :
  files w !! log_file_path self = Some f -> writable f = false ->
  _create_log_file self w
  = (Ok tt,
     {| files := files w; clock := clock w; tick := tick w;
        console := console w
                   ++ [CreateFailed (PermissionError (path_str (log_file_path self)))] |}).
Proof. intros H Hw. io_unfold. rewrite H, Hw. reflexivity. Qed.

Section Append.
Context {F : Type}.
Variable float_json : F -> str.

Lemma written_line_unfold (e : entry F) :
  (if dict_truthy (bbox_info e)
   then time_range (start_dt e) (end_dt e) ++ [TAB] ++ description e ++ [TAB]
        ++ dumps_dict float_json (bbox_info e) ++ [LF]
   else time_range (start_dt e) (end_dt e) ++ [TAB] ++ description e ++ [LF])
  = written_line float_json e ++ [LF].
Proof.
  unfold written_line. destruct (dict_truthy (bbox_info e));
    rewrite <- ?app_assoc; reflexivity.
Qed.

Lemma append_log_new (self : LogManager) (e : entry F) (w : world) :
  files w !! log_file_path self = None ->
  append_entry float_json self e w
  = (Ok true,
     {| files := <[log_file_path self :=
                     {| data := written_line float_json e ++ [LF]; readable := true;
                        writable := true; mtime := clock w (S (tick w)) |}]> (files w);
        clock := clock w; tick := S (tick w);
        console := console w ++ [Saved (description e)] |}).
Proof.
  intros H. rewrite <- written_line_unfold. io_unfold. io_simpl. rewrite H. io_simpl.
  destruct (dict_truthy (bbox_info e)); io_simpl; rewrite !insert_insert_eq; reflexivity.
Qed.

Lemma append_log_writable (self : LogManager) (e : entry F) (w : world) (f : file) :
  files w !! log_file_path self = Some f -> writable f = true ->
  append_entry float_json self e w
  = (Ok true,
     {| files := <[log_file_path self :=
                     {| data := data f ++ written_line float_json e ++ [LF];
                        readable := readable f; writable := true;
                        mtime := clock w (S (tick w)) |}]> (files w);
        clock := clock w; tick := S (tick w);
        console := console w ++ [Saved (description e)] |}).
Proof.
  intros H Hw. rewrite <- written_line_unfold. io_unfold. io_simpl. rewrite H, Hw. io_simpl.
  destruct (dict_truthy (bbox_info e)); io_simpl; rewrite H; io_simpl; rewrite Hw;
    reflexivity.
Qed.

Lemma append_log_denied (self : LogManager) (e : entry F) (w : world) (f : file) :
  files w !! log_file_path self = Some f -> writable f = false ->
  fst (append_entry float_json self e w) = Ok false
  /\ files (snd (append_entry float_json self e w)) = files w.
Proof.
  intros H Hw. io_unfold. io_simpl. rewrite H, Hw. io_simpl. split; reflexivity.
Qed.

(** What a successful call leaves: the old text, the written line, a line
    feed; and the file may be read if it might before. *)
Lemma append_log_success (self : LogManager) (e : entry F) (w w' : world) :
  append_entry float_json self e w = (Ok true, w') ->
  exists f',
    files w' !! log_file_path self = Some f'
    /\ data f' = log_text w self ++ written_line float_json e ++ [LF]
    /\ readable f' = match files w !! log_file_path self with
                     | Some f => readable f
                     | None => true
                     end
    /\ writable f' = true.
Proof.
  intros Happ. unfold log_text.
  destruct (files w !! log_file_path self) as [f|] eqn:Hf.
  - destruct (writable f) eqn:Hw.
    + rewrite (append_log_writable _ _ _ _ Hf Hw) in Happ.
      injection Happ as <-. eexists. io_simpl. repeat split; reflexivity.
    + destruct (append_log_denied self e w f Hf Hw) as [Hfalse _].
      rewrite Happ in Hfalse. discriminate Hfalse.
  - rewrite (append_log_new _ _ _ Hf) in Happ.
    injection Happ as <-. eexists. io_simpl. repeat split; reflexivity.
Qed.

End Append.

Lemma read_recent_logs_readable (self : LogManager) (count : Z) (w : world) (f : file) :
  files w !! log_file_path self = Some f -> readable f = true ->
  fst (read_recent_logs self count w)
  = Ok (match map strip (List.filter is_entry (readlines (data f))) with
        | [] => []
        | _ :: _ => slice_from (- count)
                      (map strip (List.filter is_entry (readlines (data f))))
        end).
Proof.
  intros H Hr. io_unfold. rewrite H. io_simpl. rewrite H, Hr. io_simpl. rewrite H.
  reflexivity.
Qed.

Lemma get_log_stats_readable (self : LogManager) (w : world) (f : file) :
  files w !! log_file_path self = Some f -> readable f = true ->
  reported_entries self w = Some (count_entries (data f)).
Proof.
  intros H Hr. unfold reported_entries. io_unfold. rewrite H. io_simpl.
  rewrite H. io_simpl. rewrite H, Hr. io_simpl. rewrite H. io_simpl. rewrite H. reflexivity.
Qed.

End OperationCases.

(** ** Reading the log *)

Section Reading.
Import LogManager LogStated.

Lemma slice_from_zero {A} (l : list A) : slice_from 0 l = l.
Proof.
  unfold slice_from. cbn [Z.ltb Z.compare].
  rewrite Z.min_l by lia. reflexivity.
Qed.

Lemma slice_from_last {A} (l : list A) (x : A) : slice_from (-1) (l ++ [x]) = [x].
Proof.
  unfold slice_from. cbn [Z.ltb Z.compare].
  rewrite length_app. cbn [length].
  replace (Z.to_nat (Z.max 0 (-1 + Z.of_nat (length l + 1)))) with (length l) by lia.
  apply drop_app_length.
Qed.

(** C10: with a count of zero, [read_recent_logs] returns every line of
    the file that is neither blank nor a comment, trimmed: as many lines as
    the file has entries, and not the empty list. *)
Theorem read_recent_logs_zero_returns_all (self : LogManager) (w : world) (f : file) :
  files w !! log_file_path self = Some f ->
  readable f = true ->
  fst (read_recent_logs self 0 w)
  = Ok (map strip (List.filter is_entry (readlines (data f))))
  /\ length (map strip (List.filter is_entry (readlines (data f))))
     = count_entries (data f).
Proof.
  intros H Hr. rewrite (read_recent_logs_readable _ _ _ _ H Hr). split.
  - change (- 0)%Z with 0%Z. rewrite slice_from_zero.
    destruct (map strip (List.filter is_entry (readlines (data f)))); reflexivity.
  - unfold count_entries. apply length_map.
Qed.

Lemma read_recent_logs_zero_returns_all_witness :
  fst (read_recent_logs sample_manager 0 read_only_world)
  = Ok [lit "2024-01-02-030405~030410" ++ [TAB] ++ lit "person waves hand."].
Proof.
  refine (proj1 (read_recent_logs_zero_returns_all sample_manager read_only_world
                   {| data := header t_start
                              ++ written_line half_json plain_entry ++ [LF];
                      readable := true; writable := false; mtime := t_start |} _ _)).
  - vm_compute. reflexivity.
  - reflexivity.
Defined.

Section Recent.
Context {F : Type}.
Variable float_json : F -> str.

(** The written line, trimmed: the time range stays whole, and what
    follows loses the white space at its end. *)
Lemma strip_written_line (e : entry F) :
  strip (written_line float_json e ++ [LF])
  = time_range (start_dt e) (end_dt e)
    ++ rstrip ([TAB] ++ description e
               ++ (if dict_truthy (bbox_info e)
                   then [TAB] ++ dumps_dict float_json (bbox_info e)
                   else [])).
Proof.
  unfold written_line.
  set (tail := [TAB] ++ description e
               ++ (if dict_truthy (bbox_info e)
                   then [TAB] ++ dumps_dict float_json (bbox_info e)
                   else [])).
  pose proof (time_range_graphic (start_dt e) (end_dt e)) as Hg.
  destruct (time_range_head (start_dt e) (end_dt e)) as [rest Hrest].
  rewrite Hrest in *. cbn [forallb] in Hg. apply andb_true_iff in Hg as [Hd Hg].
  rewrite <- app_assoc. rewrite <- app_comm_cons.
  rewrite strip_cons by apply graphic_not_space, Hd.
  rewrite rstrip_keeps_prefix by apply graphic_all_not_space, Hg.
  rewrite rstrip_newline. reflexivity.
Qed.

Lemma dumps_dict_closed (d : option (list (str * json F))) :
  dict_truthy d = true -> exists body, dumps_dict float_json d = body ++ [125].
Proof.
  destruct d as [[|kv d]|]; try discriminate. intros _.
  unfold dumps_dict. cbn [json_dumps]. eexists. rewrite !app_assoc. reflexivity.
Qed.

(** The trimmed line has the time range, and the description as well when
    the metadata follow it or it has no white space at its end. *)
Lemma stripped_line_contents (e : entry F) :
  contains (time_range (start_dt e) (end_dt e))
           (strip (written_line float_json e ++ [LF])) = true
  /\ (dict_truthy (bbox_info e) = true \/ rstrip (description e) = description e ->
      contains (description e) (strip (written_line float_json e ++ [LF])) = true).
Proof.
  rewrite strip_written_line. split.
  - apply contains_spec. eexists [], _. reflexivity.
  - intros Hcase. apply contains_spec.
    destruct (dict_truthy (bbox_info e)) eqn:Ht.
    + destruct (dumps_dict_closed _ Ht) as [body ->].
      replace ([TAB] ++ description e ++ [TAB] ++ body ++ [125])
        with (([TAB] ++ description e ++ [TAB] ++ body) ++ [125])
        by (rewrite <- !app_assoc; reflexivity).
      rewrite rstrip_snoc by reflexivity.
      exists (time_range (start_dt e) (end_dt e) ++ [TAB]), ([TAB] ++ body ++ [125]).
      rewrite <- !app_assoc. reflexivity.
    + destruct Hcase as [Hcase | Hkept]; [discriminate Hcase|].
      rewrite app_nil_r, rstrip_app.
      destruct (forallb is_space (description e)) eqn:Hsp.
      * rewrite (rstrip_all_space _ Hsp) in Hkept. rewrite <- Hkept.
        eexists [], _. reflexivity.
      * rewrite Hkept.
        exists (time_range (start_dt e) (end_dt e) ++ [TAB]), [].
        rewrite app_nil_r, <- app_assoc. reflexivity.
Qed.

End Recent.
End Reading.

(** ** Appending to the log *)

Section Appending.
Import LogManager LogStated.

(** C6, as stated, fails: a description of two lines adds two lines to
    the file. *)
Lemma one_described_line_appended_fails : ~ one_described_line_appended.
Proof.
  intros H.
  specialize (H unit half_json sample_manager two_line_entry fresh_world).
  vm_compute in H. discriminate H.
Qed.

(** C6, amended: a successful call appends to the file the time range, a
    tab, the description, then, when the metadata are there and not empty,
    a tab and their JSON text, and a line feed; without metadata, or with
    empty ones, the line ends after the description.  This is exactly one
    more line of the file when the description has neither a line feed nor
    a carriage return and the file ended with a line feed before. *)
Theorem append_log_writes_line {F} (float_json : F -> str) (self : LogManager)
    (e : entry F) (w w' : world) :
  (forall x, no_newline (float_json x) = true) ->
  append_entry float_json self e w = (Ok true, w') ->
  log_text w' self = log_text w self ++ written_line float_json e ++ [LF]
  /\ (bbox_info e <> Some [] -> written_line float_json e = described_line float_json e)
  /\ (bbox_info e = None \/ bbox_info e = Some [] ->
      written_line float_json e
      = time_range (start_dt e) (end_dt e) ++ [TAB] ++ description e)
  /\ no_newline (dumps_dict float_json (bbox_info e)) = true
  /\ (ends_with_newline (log_text w self) = true ->
      no_newline (description e) = true ->
      readlines (log_text w' self)
      = readlines (log_text w self) ++ [written_line float_json e ++ [LF]]).
Proof.
  intros Hfloat Happ.
  destruct (append_log_success _ _ _ _ _ Happ) as (f' & Hf' & Hdata & _ & _).
  assert (log_text w' self = log_text w self ++ written_line float_json e ++ [LF]) as Htext.
  { unfold log_text at 1. rewrite Hf'. exact Hdata. }
  split; [exact Htext|]. split; [|split; [|split]].
  - intros Hne. unfold written_line, described_line.
    destruct (bbox_info e) as [[|kv d]|]; [congruence | reflexivity | reflexivity].
  - unfold written_line. intros [-> | ->]; cbn [dict_truthy];
      rewrite app_nil_r; reflexivity.
  - unfold dumps_dict. destruct (bbox_info e); [|reflexivity].
    apply json_dumps_no_newline, Hfloat.
  - intros Hend Hdesc. rewrite Htext.
    apply readlines_append_line; [exact Hend|].
    apply written_line_no_newline; assumption.
Qed.

Lemma append_log_writes_line_witness :
  readlines (log_text (snd (append_entry half_json sample_manager sample_entry fresh_world))
               sample_manager)
  = readlines (log_text fresh_world sample_manager)
    ++ [written_line half_json sample_entry ++ [LF]].
Proof.
  refine (proj2 (proj2 (proj2 (proj2
            (append_log_writes_line half_json sample_manager sample_entry fresh_world
               (snd (append_entry half_json sample_manager sample_entry fresh_world))
               _ _)))) _ _).
  - intros []. reflexivity.
  - vm_compute. reflexivity.
  - vm_compute. reflexivity.
  - vm_compute. reflexivity.
Defined.

(** C5, as stated, fails: after a description of two lines, the most
    recent line is its second line, without the time range. *)
Lemma recent_line_has_entry_fails : ~ recent_line_has_entry.
Proof.
  intros H.
  destruct (H unit half_json sample_manager two_line_entry fresh_world
              (snd (append_entry half_json sample_manager two_line_entry fresh_world))
              ltac:(vm_compute; reflexivity)) as (line & Hread & Hrange & _).
  vm_compute in Hread. injection Hread as <-.
  vm_compute in Hrange. discriminate Hrange.
Qed.

(** C5, amended: after a successful call with a description that has
    neither a line feed nor a carriage return, on a log file that may be
    read and ended with a line feed, [read_recent_logs(1)] returns exactly
    one line, the written one trimmed.  It contains the time range; it
    contains the very description when the metadata follow it or when the
    description has no white space at its end. *)
Theorem recent_log_after_append {F} (float_json : F -> str) (self : LogManager)
    (e : entry F) (w w' : world) :
  (forall x, no_newline (float_json x) = true) ->
  append_entry float_json self e w = (Ok true, w') ->
  ends_with_newline (log_text w self) = true ->
  (forall f, files w !! log_file_path self = Some f -> readable f = true) ->
  no_newline (description e) = true ->
  fst (read_recent_logs self 1 w') = Ok [strip (written_line float_json e ++ [LF])]
  /\ contains (time_range (start_dt e) (end_dt e))
              (strip (written_line float_json e ++ [LF])) = true
  /\ (dict_truthy (bbox_info e) = true \/ rstrip (description e) = description e ->
      contains (description e) (strip (written_line float_json e ++ [LF])) = true).
Proof.
  intros Hfloat Happ Hend Hread Hdesc.
  split; [|apply stripped_line_contents].
  destruct (append_log_success _ _ _ _ _ Happ) as (f' & Hf' & Hdata & Hr & _).
  assert (readable f' = true) as Hr'.
  { rewrite Hr. destruct (files w !! log_file_path self) as [f|] eqn:Hf;
      [apply Hread; reflexivity | reflexivity]. }
  rewrite (read_recent_logs_readable _ _ _ _ Hf' Hr'), Hdata.
  rewrite (readlines_append_line _ _ Hend
             (written_line_no_newline float_json Hfloat e Hdesc)).
  rewrite List.filter_app. cbn [List.filter].
  rewrite written_line_is_entry, map_app. cbn [map].
  change (- 1)%Z with (-1)%Z. rewrite slice_from_last.
  destruct (map strip (List.filter is_entry (readlines (log_text w self))));
    reflexivity.
Qed.

Lemma recent_log_after_append_witness :
  fst (read_recent_logs sample_manager 1
         (snd (append_entry half_json sample_manager sample_entry fresh_world)))
  = Ok [strip (written_line half_json sample_entry ++ [LF])].
Proof.
  refine (proj1 (recent_log_after_append half_json sample_manager sample_entry fresh_world
                   (snd (append_entry half_json sample_manager sample_entry fresh_world))
                   _ _ _ _ _)).
  - intros []. reflexivity.
  - vm_compute. reflexivity.
  - vm_compute. reflexivity.
  - intros f Hf. vm_compute in Hf. injection Hf as <-. reflexivity.
  - vm_compute. reflexivity.
Defined.

End Appending.

(** ** Counting the entries *)

Section Counting.
Import LogManager LogStated.

Lemma ends_with_newline_line (a s : str) : ends_with_newline (a ++ s ++ [LF]) = true.
Proof. rewrite app_assoc. apply ends_with_newline_snoc. Qed.

Lemma header_lines (t : datetime) :
  header t
  = ((([] ++ lit "# Action Log File" ++ [LF])
      ++ lit "# Format: TIME_RANGE\tDESCRIPTION\tBBOX_INFO" ++ [LF])
     ++ (lit "# Created: " ++ isoformat t) ++ [LF])
    ++ [] ++ [LF].
Proof. unfold header. rewrite <- !app_assoc. reflexivity. Qed.

(** The header ends with a line feed and has no entry: three comments and
    a blank line. *)
Lemma header_no_entry (t : datetime) :
  ends_with_newline (header t) = true /\ count_entries (header t) = O.
Proof.
  rewrite header_lines. split; [apply ends_with_newline_line|].
  assert (no_newline (lit "# Created: " ++ isoformat t) = true) as Hiso.
  { rewrite no_newline_app, (graphic_no_newline _ (isoformat_graphic t)). reflexivity. }
  assert (is_entry ((lit "# Created: " ++ isoformat t) ++ [LF]) = false) as Hcomment.
  { unfold is_entry. apply andb_false_iff. right. reflexivity. }
  rewrite count_entries_append_line;
    [|apply ends_with_newline_line | reflexivity].
  rewrite count_entries_append_line;
    [|apply ends_with_newline_line | exact Hiso].
  rewrite count_entries_append_line;
    [|apply ends_with_newline_line | reflexivity].
  rewrite count_entries_append_line; [|reflexivity | reflexivity].
  rewrite Hcomment. reflexivity.
Qed.

Lemma create_log_file_ready (self : LogManager) (w : world) :
  files w !! log_file_path self = None ->
  log_ready self (snd (_create_log_file self w)) O.
Proof.
  intros H. rewrite (create_log_file_new _ _ H). cbn [snd].
  eexists. cbn [files]. rewrite lookup_insert_eq.
  split; [reflexivity|]. cbn [data readable writable].
  destruct (header_no_entry (clock w (tick w))) as [Hend Hcount].
  repeat split; assumption.
Qed.

Lemma stats_of_ready (self : LogManager) (w : world) (n : nat) :
  log_ready self w n -> reported_entries self w = Some n.
Proof.
  intros (f & Hf & Hr & _ & _ & Hn).
  rewrite (get_log_stats_readable _ _ _ Hf Hr), Hn. reflexivity.
Qed.

Section Steps.
Context {F : Type}.
Variable float_json : F -> str.
Hypothesis float_json_line : forall x, no_newline (float_json x) = true.

(** On a log file in order, a call with a description free of line ends
    succeeds and adds one entry. *)
Lemma append_log_ready (self : LogManager) (e : entry F) (w : world) (n : nat) :
  log_ready self w n ->
  no_newline (description e) = true ->
  exists w', append_entry float_json self e w = (Ok true, w')
             /\ log_ready self w' (S n).
Proof.
  intros (f & Hf & Hr & Hw & Hend & Hn) Hdesc.
  rewrite (append_log_writable float_json _ e _ _ Hf Hw).
  eexists. split; [reflexivity|].
  eexists. cbn [files]. rewrite lookup_insert_eq.
  split; [reflexivity|]. cbn [data readable writable].
  pose proof (written_line_no_newline float_json float_json_line e Hdesc) as Hline.
  repeat split; [exact Hr | apply ends_with_newline_line |].
  rewrite (count_entries_append_line _ _ Hend Hline), Hn, written_line_is_entry. lia.
Qed.

Lemma appended_ready (self : LogManager) (es : list (entry F)) (w w' : world) (n : nat) :
  appended float_json self w es w' ->
  log_ready self w n ->
  Forall (fun e => no_newline (description e) = true) es ->
  log_ready self w' (n + length es).
Proof.
  intros Hrun. revert n.
  induction Hrun as [w | w e w1 es w2 Hcall Hrest IH]; intros n Hready Hes.
  - cbn [length]. rewrite Nat.add_0_r. exact Hready.
  - inversion Hes as [|? ? He Hes']; subst.
    destruct (append_log_ready self e w n Hready He) as (w1' & Hcall' & Hready').
    rewrite Hcall in Hcall'. injection Hcall' as <-.
    cbn [length]. rewrite Nat.add_succ_r. apply (IH (S n) Hready' Hes').
Qed.

Lemma appended_exists (self : LogManager) (es : list (entry F)) (w : world) (n : nat) :
  log_ready self w n ->
  Forall (fun e => no_newline (description e) = true) es ->
  exists w', appended float_json self w es w'.
Proof.
  revert w n. induction es as [|e es IH]; intros w n Hready Hes.
  - exists w. constructor.
  - inversion Hes as [|? ? He Hes']; subst.
    destruct (append_log_ready self e w n Hready He) as (w1 & Hcall & Hready1).
    destruct (IH w1 (S n) Hready1 Hes') as [w2 Hrun].
    exists w2. econstructor; eassumption.
Qed.

End Steps.

(** C7, as stated, fails: a description with a carriage return has no
    line feed, and yet counts as two entries, since a carriage return ends
    a line when the file is read. *)
Lemma stats_count_calls_fails : ~ stats_count_calls.
Proof.
  intros H.
  destruct (H unit half_json sample_manager [carriage_return_entry] empty_world
              (snd (append_entry half_json sample_manager carriage_return_entry
                      (snd (_create_log_file sample_manager empty_world)))))
    as [_ Hcount].
  - vm_compute. reflexivity.
  - constructor; [|constructor]. vm_compute.
    intros [Hc | [Hc | [Hc | []]]]; discriminate Hc.
  - specialize (Hcount ltac:(econstructor; [vm_compute; reflexivity | constructor])).
    vm_compute in Hcount. discriminate Hcount.
Qed.

(** C7, amended: a log file just created has no entry; and after any
    number of successful calls whose descriptions have neither a line feed
    nor a carriage return, which do succeed, it has that number of
    entries. *)
Theorem stats_count_appended {F} (float_json : F -> str) (self : LogManager)
    (es : list (entry F)) (w0 : world) :
  (forall x, no_newline (float_json x) = true) ->
  files w0 !! log_file_path self = None ->
  Forall (fun e => no_newline (description e) = true) es ->
  reported_entries self (snd (_create_log_file self w0)) = Some O
  /\ (exists w, appended float_json self (snd (_create_log_file self w0)) es w)
  /\ (forall w, appended float_json self (snd (_create_log_file self w0)) es w ->
                reported_entries self w = Some (length es)).
Proof.
  intros Hfloat Hnew Hes.
  pose proof (create_log_file_ready self w0 Hnew) as Hready.
  split; [apply stats_of_ready, Hready|]. split.
  - apply (appended_exists float_json Hfloat self es _ O Hready Hes).
  - intros w Hrun. apply stats_of_ready.
    apply (appended_ready float_json Hfloat self es _ w O Hrun Hready Hes).
Qed.

Lemma stats_count_appended_witness :
  reported_entries sample_manager (snd (_create_log_file sample_manager empty_world))
  = Some O
  /\ (exists w, appended half_json sample_manager
                  (snd (_create_log_file sample_manager empty_world))
                  [sample_entry; plain_entry] w)
  /\ (forall w, appended half_json sample_manager
                  (snd (_create_log_file sample_manager empty_world))
                  [sample_entry; plain_entry] w ->
                reported_entries sample_manager w = Some 2%nat).
Proof.
  apply (stats_count_appended half_json sample_manager [sample_entry; plain_entry]
           empty_world).
  - intros []. reflexivity.
  - vm_compute. reflexivity.
  - repeat constructor.
Defined.

End Counting.

(** ** Clearing the log *)

Section Clearing.
Import LogManager LogStated.

(** [clear_logs] answers [True] whatever happens to the file: the failure
    of [_create_log_file] never reaches it. *)
Lemma clear_logs_always_true (self : LogManager) (w : world) :
  fst (clear_logs self w) = Ok true.
Proof.
  unfold clear_logs, try_except, bind.
  destruct (files w !! log_file_path self) as [f|] eqn:Hf.
  - destruct (writable f) eqn:Hw.
    + rewrite (create_log_file_writable _ _ _ Hf Hw). reflexivity.
    + rewrite (create_log_file_denied _ _ _ Hf Hw). reflexivity.
  - rewrite (create_log_file_new _ _ Hf). reflexivity.
Qed.

(** Where the file can be written, clearing leaves the header alone. *)
Lemma clear_logs_resets (self : LogManager) (w : world) :
  (forall f, files w !! log_file_path self = Some f ->
             writable f = true /\ readable f = true) ->
  log_text (snd (clear_logs self w)) self = header (clock w (tick w))
  /\ reported_entries self (snd (clear_logs self w)) = Some O.
Proof.
  intros Hfile.
  assert (exists r,
             files (snd (clear_logs self w)) !! log_file_path self
             = Some {| data := header (clock w (tick w)); readable := true;
                       writable := true; mtime := r |}) as [r Hnew].
  { unfold clear_logs, try_except, bind.
    destruct (files w !! log_file_path self) as [f|] eqn:Hf.
    - destruct (Hfile f eq_refl) as [Hw Hr].
      rewrite (create_log_file_writable _ _ _ Hf Hw), Hr.
      eexists. cbn [snd fst files LogManager.print ret].
      apply lookup_insert_eq.
    - rewrite (create_log_file_new _ _ Hf).
      eexists. cbn [snd fst files LogManager.print ret].
      apply lookup_insert_eq. }
  split.
  - unfold log_text. rewrite Hnew. reflexivity.
  - rewrite (get_log_stats_readable _ _ _ Hnew eq_refl). cbn [data].
    f_equal. apply header_no_entry.
Qed.

(** Where the file cannot be written, clearing changes no file. *)
Lemma clear_logs_denied (self : LogManager) (w : world) (f : file) :
  files w !! log_file_path self = Some f -> writable f = false ->
  files (snd (clear_logs self w)) = files w.
Proof.
  intros Hf Hw. unfold clear_logs, try_except, bind.
  rewrite (create_log_file_denied _ _ _ Hf Hw). reflexivity.
Qed.

(** C9 breaks on a log file that cannot be written: [clear_logs] reports
    success, the entry is still in the file, and [get_log_stats] counts it. *)
Theorem clear_logs_success_without_clearing :
  fst (clear_logs sample_manager read_only_world) = Ok true
  /\ log_text (snd (clear_logs sample_manager read_only_world)) sample_manager
     = log_text read_only_world sample_manager
  /\ reported_entries sample_manager (snd (clear_logs sample_manager read_only_world))
     = Some 1%nat.
Proof. vm_compute. repeat split; reflexivity. Qed.

End Clearing.

(** ** Backing up the log *)

Section Backup.
Import LogManager LogStated.

Lemma contains_char (c : N) (s : str) : contains [c] s = existsb (N.eqb c) s.
Proof.
  unfold contains. induction s as [|d s IH]; [reflexivity|].
  cbn [partition_first startswith existsb]. rewrite andb_true_r.
  destruct (c =? d); [reflexivity|]. cbn [orb]. rewrite <- IH.
  destruct (partition_first [c] s) as [[b a]|]; reflexivity.
Qed.

(** The name is its stem followed by its last extension. *)
Lemma path_stem_suffix (p : Path) : path_name p = path_stem p ++ path_suffix p.
Proof.
  unfold path_stem, path_suffix.
  destruct (rfind_char 46 (path_name p)) as [i|];
    [destruct ((0 <? i) && (i <? length (path_name p) - 1))%nat eqn:E|].
  - apply andb_true_iff in E as [_ E]. apply Nat.ltb_lt in E.
    rewrite length_drop.
    replace (length (path_name p) - (length (path_name p) - i))%nat with i by lia.
    symmetry. apply take_drop.
  - cbn [length]. rewrite Nat.sub_0_r, firstn_all, app_nil_r. reflexivity.
  - cbn [length]. rewrite Nat.sub_0_r, firstn_all, app_nil_r. reflexivity.
Qed.






End Backup.

(** * Further properties *)

(** ** Trimming, again *)

Lemma lstrip_nil_inv (s : str) : lstrip s = [] -> forallb is_space s = true.
Proof.
  induction s as [|c s IH]; simpl; [reflexivity|].
  destruct (is_space c); [exact IH | discriminate].
Qed.

Lemma lstrip_head (s t : str) (c : N) : lstrip s = c :: t -> is_space c = false.
Proof.
  induction s as [|d s IH]; simpl; [discriminate|].
  destruct (is_space d) eqn:E; [exact IH|]. intros [= <- _]. exact E.
Qed.

Lemma lstrip_idempotent (s : str) : lstrip (lstrip s) = lstrip s.
Proof.
  induction s as [|c s IH]; simpl; [reflexivity|].
  destruct (is_space c) eqn:E; [exact IH|]. simpl. rewrite E. reflexivity.
Qed.

Lemma rstrip_idempotent (s : str) : rstrip (rstrip s) = rstrip s.
Proof. unfold rstrip. rewrite rev_involutive, lstrip_idempotent. reflexivity. Qed.

(** Trimming a trimmed text changes nothing. *)
Lemma strip_idempotent (s : str) : strip (strip s) = strip s.
Proof.
  unfold strip at 2 3. destruct (lstrip s) as [|c t] eqn:E; [reflexivity|].
  pose proof (lstrip_head _ _ _ E) as Hc.
  rewrite (rstrip_cons _ _ Hc), (strip_cons _ _ Hc), rstrip_idempotent. reflexivity.
Qed.

(** The trimmed text is empty exactly when the text is white space only. *)
Lemma strip_nil_iff (s : str) : strip s = [] <-> forallb is_space s = true.
Proof.
  split.
  - unfold strip. destruct (lstrip s) as [|c t] eqn:E.
    + intros _. apply lstrip_nil_inv, E.
    + rewrite (rstrip_cons _ _ (lstrip_head _ _ _ E)). discriminate.
  - intros H. unfold strip. rewrite (lstrip_all_space _ H). reflexivity.
Qed.

Lemma splitlines_cons (c : N) (s : str) :
  splitlines (c :: s)
  = if c =? CR then
      match s with
      | d :: s' => if d =? LF then [] :: splitlines s' else [] :: splitlines s
      | [] => [[]]
      end
    else if is_linebreak c then [] :: splitlines s
    else match splitlines s with
         | [] => [[c]]
         | l :: ls => (c :: l) :: ls
         end.
Proof. reflexivity. Qed.

(** Every line of a text is made of characters of the text. *)
Lemma splitlines_chars (P : N -> bool) (s : str) :
  (forallb P s = true -> Forall (fun l => forallb P l = true) (splitlines s))
  /\ (forall c, forallb P (c :: s) = true ->
                Forall (fun l => forallb P l = true) (splitlines (c :: s))).
Proof.
  induction s as [|d s [IHs IHds]].
  - split; [constructor|]. intros c Hc. cbn [splitlines].
    destruct (c =? CR); [repeat constructor|].
    destruct (is_linebreak c); repeat constructor. exact Hc.
  - split; [apply IHds|]. intros c Hc.
    cbn [forallb] in Hc. apply andb_true_iff in Hc as [Hc Hds].
    rewrite (splitlines_cons c (d :: s)). cbv beta iota. destruct (c =? CR).
    + destruct (d =? LF).
      * constructor; [reflexivity|]. apply IHs.
        cbn [forallb] in Hds. apply andb_true_iff in Hds as [_ Hs]. exact Hs.
      * constructor; [reflexivity | apply IHds, Hds].
    + destruct (is_linebreak c).
      * constructor; [reflexivity | apply IHds, Hds].
      * pose proof (IHds d Hds) as Hlines.
        destruct (splitlines (d :: s)) as [|l ls].
        -- repeat constructor. cbn [forallb]. rewrite Hc. reflexivity.
        -- inversion Hlines as [|? ? Hl Hls]; subst.
           constructor; [|exact Hls]. cbn [forallb]. rewrite Hc, Hl. reflexivity.
Qed.

(** ** The analyzer, further *)

Section ExtractionFurther.
Import DAMAnalyzer.

Lemma scan_trimmed (lines : list str) (desc : str) :
  strip desc = desc -> strip (fold_left scan_line lines desc) = fold_left scan_line lines desc.
Proof.
  revert desc. induction lines as [|l lines IH]; intros desc Hd; simpl; [exact Hd|].
  apply IH. unfold scan_line. destruct (startswith l marker); [|exact Hd].
  apply strip_idempotent.
Qed.

(** X1: whatever the output, the description extracted from it has no
    white space at its start or at its end. *)
Theorem extract_description_trimmed (raw : str) :
  strip (_extract_description raw) = _extract_description raw.
Proof.
  unfold _extract_description.
  destruct (truthy (fold_left scan_line (splitlines raw) [])).
  - apply scan_trimmed. reflexivity.
  - destruct (last (List.filter is_clean (splitlines raw))); apply strip_idempotent.
Qed.

Lemma blank_line_no_marker (l : str) :
  forallb is_space l = true -> startswith l marker = false.
Proof.
  destruct l as [|c l]; [reflexivity|]. cbn [forallb]. intros H.
  apply andb_true_iff in H as [Hc _].
  change marker with (68 :: lit "escription:"). cbn [startswith].
  destruct (N.eqb_spec 68 c) as [<-|]; [discriminate Hc | reflexivity].
Qed.

(** X2: the description extracted is empty exactly when the output is
    blank, made of white space only. *)
Theorem extract_description_empty_iff_blank (raw : str) :
  _extract_description raw = [] <-> forallb is_space raw = true.
Proof.
  unfold _extract_description. split.
  - destruct (truthy (fold_left scan_line (splitlines raw) [])) eqn:Hd.
    + intros H. rewrite H in Hd. discriminate Hd.
    + destruct (last (List.filter is_clean (splitlines raw))) as [l|] eqn:Hl.
      * intros H. apply last_Some in Hl as [pre Hl].
        assert (In l (List.filter is_clean (splitlines raw))) as Hin.
        { rewrite Hl. apply in_or_app. right. left. reflexivity. }
        apply List.filter_In in Hin as [_ Hclean].
        apply is_clean_true in Hclean as [Hne _]. contradiction.
      * apply strip_nil_iff.
  - intros Hblank.
    pose proof (proj1 (splitlines_chars is_space raw) Hblank) as Hlines.
    rewrite scan_no_marker.
    2:{ eapply Forall_impl; [exact Hlines|]. intros l. apply blank_line_no_marker. }
    cbn [truthy]. rewrite filter_none.
    2:{ eapply Forall_impl; [exact Hlines|]. intros l Hl.
        apply is_clean_false. left. apply strip_nil_iff, Hl. }
    apply strip_nil_iff, Hblank.
Qed.

End ExtractionFurther.

Section InvocationFurther.
Import DAMAnalyzer AnalyzerStated ExtraStated.
Context {F : Type}.
Variable float_str : F -> str.
Variable sys_executable : str.
Variable subprocess_run : list str -> result CompletedProcess exn.

(** X3: the segmentation mode is the plain mode with one more argument:
    its result is the one of [analyze_with_bbox] run on a command that has
    [--use_sam2] put in after [--use_box]. *)
Theorem analyze_with_sam2_adds_flag (self : Analyzer F) (video : Path)
    (bbox : list F) (out : list message) :
  fst (analyze_with_sam2 float_str sys_executable subprocess_run self video bbox out)
  = fst (analyze_with_bbox float_str sys_executable
           (fun cmd => subprocess_run (with_sam2_flag cmd)) self video bbox out).
Proof.
  unfold analyze_with_sam2, analyze_with_bbox, try_except, bind, run, print, raise, ret,
    with_sam2_flag.
  cbn [take drop app].
  match goal with |- context [subprocess_run ?cmd] =>
    destruct (subprocess_run cmd) as [r|e]
  end.
  - destruct (returncode r =? 0)%Z; reflexivity.
  - destruct (is_Exception e); reflexivity.
Qed.

(** X4: on an exit code other than zero the console shows, after the
    start message, the banner, the captured standard error and the failure
    with the exit code; nothing else is printed and the result is absent. *)
Theorem analyze_failure_console (self : Analyzer F) (video : Path)
    (bbox : list F) (use_sam2 : bool) (r : CompletedProcess) (out : list message) :
  (forall cmd, subprocess_run cmd = Ok r) ->
  returncode r <> 0%Z ->
  analyze_video float_str sys_executable subprocess_run self video bbox use_sam2 out
  = (Ok None,
     out ++ [Started use_sam2; StderrBanner; Text (stderr r);
             Failed use_sam2
               (RuntimeError (lit "DAM exited " ++ str_of_Z (returncode r)))]).
Proof.
  intros Hrun Hcode. apply Z.eqb_neq in Hcode.
  unfold analyze_video.
  destruct use_sam2; unfold analyze_with_sam2, analyze_with_bbox;
    unfold try_except, bind, run, print, raise, ret;
    rewrite Hrun, Hcode; cbn [negb is_Exception];
    rewrite <- !app_assoc; reflexivity.
Qed.

(** X5: an interrupt or an exit request raised while the process runs is
    no [Exception]; the analysis does not turn it into an absent result but
    lets it through, after the start message only. *)
Theorem analyze_interrupt_propagates (self : Analyzer F) (video : Path)
    (bbox : list F) (use_sam2 : bool) (e : exn) (out : list message) :
  (forall cmd, subprocess_run cmd = Error e) ->
  is_Exception e = false ->
  analyze_video float_str sys_executable subprocess_run self video bbox use_sam2 out
  = (Error e, out ++ [Started use_sam2]).
Proof.
  intros Hrun He. unfold analyze_video.
  destruct use_sam2; unfold analyze_with_sam2, analyze_with_bbox;
    unfold try_except, bind, run, print, raise, ret;
    rewrite Hrun, He; reflexivity.
Qed.

(** X6: the setters act on the command only where they should: after
    [set_prompt] the analysis runs the same command with the new prompt as
    its last argument, and after [set_parameters] the same command with the
    value after [--temperature], or after [--top_p], replaced; a parameter
    left out changes nothing. *)
Theorem setters_change_their_argument (self : Analyzer F) (video : Path)
    (bbox : list F) (use_sam2 : bool) (out : list message) :
  (forall new_prompt,
      fst (analyze_video float_str sys_executable subprocess_run
             (fst (set_prompt self new_prompt)) video bbox use_sam2 out)
      = fst (analyze_video float_str sys_executable
               (fun cmd => subprocess_run (removelast cmd ++ [new_prompt]))
               self video bbox use_sam2 out))
  /\ (forall new_temperature new_top_p,
         let i := if use_sam2 then 11%nat else 10%nat in
         fst (analyze_video float_str sys_executable subprocess_run
                (fst (set_parameters float_str self new_temperature new_top_p))
                video bbox use_sam2 out)
         = fst (analyze_video float_str sys_executable
                  (fun cmd => subprocess_run
                                (set_arg (i + 2) (float_str <$> new_top_p)
                                   (set_arg i (float_str <$> new_temperature) cmd)))
                  self video bbox use_sam2 out)).
Proof.
  split.
  - intros new_prompt. unfold analyze_video, set_prompt.
    destruct use_sam2; unfold analyze_with_sam2, analyze_with_bbox;
      unfold try_except, bind, run, print, raise, ret; reflexivity.
  - intros new_temperature new_top_p i. subst i. unfold analyze_video, set_parameters.
    destruct use_sam2, new_temperature as [t|], new_top_p as [p|];
      unfold analyze_with_sam2, analyze_with_bbox;
      unfold try_except, bind, run, print, raise, ret; reflexivity.
Qed.

End InvocationFurther.

Section InvocationFurtherExamples.
Import DAMAnalyzer AnalyzerStated ExtraStated.

Lemma analyze_failure_console_witness :
  snd (analyze_video sample_float_str (lit "python3") (fun _ => Ok failed_run)
         sample_analyzer sample_video [tt; tt; tt; tt] true [])
  = [Started true; StderrBanner; Text (lit "no such file" ++ [LF]);
     Failed true (RuntimeError (lit "DAM exited 1"))].
Proof.
  rewrite (analyze_failure_console sample_float_str (lit "python3")
             (fun _ => Ok failed_run) sample_analyzer sample_video [tt; tt; tt; tt]
             true failed_run []).
  - reflexivity.
  - intros cmd. reflexivity.
  - simpl. lia.
Defined.

Lemma analyze_interrupt_propagates_witness :
  fst (analyze_video sample_float_str (lit "python3") (fun _ => Error KeyboardInterrupt)
         sample_analyzer sample_video [tt; tt; tt; tt] false [])
  = Error KeyboardInterrupt.
Proof.
  rewrite (analyze_interrupt_propagates sample_float_str (lit "python3")
             (fun _ => Error KeyboardInterrupt) sample_analyzer sample_video
             [tt; tt; tt; tt] false KeyboardInterrupt []).
  - reflexivity.
  - intros cmd. reflexivity.
  - reflexivity.
Defined.

End InvocationFurtherExamples.

(** ** The log manager, further *)

Section LogFurther.
Import LogManager LogStated ExtraStated.

Ltac io_unfold :=
  unfold _create_log_file, append_entry, append_log, read_recent_logs, get_log_stats,
    clear_logs, backup_logs, init, try_except, bind, open_w, open_a, open_r, f_write,
    f_readlines, copy2, stat, path_exists, now, LogManager.print, ret, raise, lift.

Ltac io_simpl :=
  repeat first
    [ rewrite lookup_insert_eq
    | progress cbn [fst snd files clock tick console set_files data readable writable
                    mtime log_file_path is_Exception negb] ].

Ltac io_cases :=
  repeat match goal with
         | |- context [match ?m !! ?k with _ => _ end] =>
             let E := fresh "E" in destruct (m !! k) eqn:E; io_simpl
         | |- context [if ?b then _ else _] =>
             let E := fresh "E" in destruct b eqn:E; io_simpl
         end.


Section Core.
Context {F : Type}.
Variable float_json : F -> str.



(** X9: the log only grows: after a run of successful calls the file has
    its old text followed by the lines of the calls, in their order. *)
Theorem appended_extends_text (self : LogManager) (es : list (entry F)) (w w' : world) :
  appended float_json self w es w' ->
  log_text w' self = log_text w self ++ written_text float_json es.
Proof.
  induction 1 as [w | w e w1 es w2 Hcall _ IH].
  - unfold written_text. cbn [map concat]. rewrite app_nil_r. reflexivity.
  - destruct (append_log_success _ _ _ _ _ Hcall) as (f' & Hf' & Hdata & _ & _).
    rewrite IH. unfold log_text at 1. rewrite Hf', Hdata.
    unfold written_text. cbn [map concat]. rewrite <- !app_assoc. reflexivity.
Qed.

End Core.

(** *** Reading *)

Lemma slice_from_back {A} (k : Z) (l : list A) :
  (0 < k)%Z -> slice_from (- k) l = drop (length l - Z.to_nat k) l.
Proof.
  intros Hk. unfold slice_from.
  assert ((- k <? 0)%Z = true) as -> by (apply Z.ltb_lt; lia).
  f_equal. lia.
Qed.

Lemma slice_from_front {A} (k : Z) (l : list A) :
  (0 < k)%Z -> slice_from k l = drop (Z.to_nat k) l.
Proof.
  intros Hk. unfold slice_from.
  assert ((k <? 0)%Z = false) as -> by (apply Z.ltb_ge; lia).
  destruct (Z.le_gt_cases k (Z.of_nat (length l))) as [Hle | Hgt].
  - rewrite Z.min_l by lia. reflexivity.
  - rewrite Z.min_r by lia. rewrite Nat2Z.id.
    rewrite !drop_ge by lia. reflexivity.
Qed.

Lemma read_recent_logs_entries (self : LogManager) (count : Z) (w : world) (f : file) :
  files w !! log_file_path self = Some f -> readable f = true ->
  fst (read_recent_logs self count w) = Ok (slice_from (- count) (entries (data f))).
Proof.
  intros Hf Hr. rewrite (read_recent_logs_readable _ _ _ _ Hf Hr). fold (entries (data f)).
  destruct (entries (data f)) eqn:E; [|reflexivity].
  unfold slice_from. rewrite drop_nil. reflexivity.
Qed.

(** X10: with a count of at least one, [read_recent_logs] returns the
    last [count] entries of the file in the order of the file, all of them
    when there are fewer. *)
Theorem read_recent_logs_last_entries (self : LogManager) (count : Z) (w : world)
    (f : file) :
  files w !! log_file_path self = Some f ->
  readable f = true ->
  (0 < count)%Z ->
  exists lines,
    fst (read_recent_logs self count w) = Ok lines
    /\ lines = drop (length (entries (data f)) - Z.to_nat count) (entries (data f))
    /\ length lines = Nat.min (Z.to_nat count) (length (entries (data f))).
Proof.
  intros Hf Hr Hcount. eexists. split; [|split; [reflexivity|]].
  - rewrite (read_recent_logs_entries _ _ _ _ Hf Hr), (slice_from_back _ _ Hcount).
    reflexivity.
  - rewrite length_drop. lia.
Qed.

(** X11: a negative count does not mean the last entries: with the count
    [-k] the first [k] entries are left out and all the others returned. *)
Theorem read_recent_logs_negative_count (self : LogManager) (count : Z) (w : world)
    (f : file) :
  files w !! log_file_path self = Some f ->
  readable f = true ->
  (count < 0)%Z ->
  fst (read_recent_logs self count w)
  = Ok (drop (Z.to_nat (- count)) (entries (data f))).
Proof.
  intros Hf Hr Hcount.
  rewrite (read_recent_logs_entries _ _ _ _ Hf Hr), slice_from_front by lia.
  reflexivity.
Qed.

(** X12: reading changes no file, in whatever world: neither
    [read_recent_logs] nor [get_log_stats] makes, empties or alters one. *)
Theorem reading_changes_no_file (self : LogManager) (count : Z) (w : world) :
  files (snd (read_recent_logs self count w)) = files w
  /\ files (snd (get_log_stats self w)) = files w.
Proof.
  split; io_unfold; io_simpl; io_cases; reflexivity.
Qed.

Lemma reading_sentinels_aux (self : LogManager) (count : Z) (w : world) :
  (files w !! log_file_path self = None ->
   fst (read_recent_logs self count w) = Ok []
   /\ fst (get_log_stats self w) = Ok StatsAbsent)
  /\ (forall f, files w !! log_file_path self = Some f -> readable f = false ->
                fst (read_recent_logs self count w) = Ok []
                /\ fst (get_log_stats self w)
                   = Ok (StatsError (PermissionError (path_str (log_file_path self))))).
Proof.
  split.
  - intros Hf. io_unfold. rewrite Hf. split; reflexivity.
  - intros f Hf Hr. io_unfold.
    repeat first [rewrite Hf | rewrite Hr | progress io_simpl]. split; reflexivity.
Qed.

(** X13: where there is no log file, [read_recent_logs] returns the empty
    list and [get_log_stats] the summary with zero entries; where the file
    may not be read, the first still returns the empty list and the second
    the dictionary with the error. *)
Theorem reading_sentinels (self : LogManager) (count : Z) (w : world) :
  (files w !! log_file_path self = None ->
   fst (read_recent_logs self count w) = Ok []
   /\ fst (get_log_stats self w) = Ok StatsAbsent)
  /\ (forall f, files w !! log_file_path self = Some f -> readable f = false ->
                fst (read_recent_logs self count w) = Ok []
                /\ fst (get_log_stats self w)
                   = Ok (StatsError (PermissionError (path_str (log_file_path self))))).
Proof. apply reading_sentinels_aux. Qed.

Lemma entries_trimmed (content : str) :
  Forall (fun l => l <> [] /\ strip l = l) (entries content).
Proof.
  unfold entries. induction (readlines content) as [|x xs IH]; [constructor|].
  cbn [List.filter]. destruct (is_entry x) eqn:E; [|exact IH].
  cbn [map]. constructor; [|exact IH]. split.
  - unfold is_entry in E. apply andb_true_iff in E as [E _]. apply truthy_true, E.
  - apply strip_idempotent.
Qed.

(** X14: every line [read_recent_logs] returns, whatever the count and
    the world, is not empty and has no white space at its start or end. *)
Theorem recent_lines_trimmed (self : LogManager) (count : Z) (w : world)
    (lines : list str) :
  fst (read_recent_logs self count w) = Ok lines ->
  Forall (fun l => l <> [] /\ strip l = l) lines.
Proof.
  destruct (files w !! log_file_path self) as [f|] eqn:Hf.
  - destruct (readable f) eqn:Hr.
    + rewrite (read_recent_logs_entries _ _ _ _ Hf Hr). intros [= <-].
      unfold slice_from. apply Forall_drop, entries_trimmed.
    + rewrite (proj1 (proj2 (reading_sentinels_aux self count w) f Hf Hr)).
      intros [= <-]. constructor.
  - rewrite (proj1 (proj1 (reading_sentinels_aux self count w) Hf)).
    intros [= <-]. constructor.
Qed.

(** X15: reading and counting agree: where the log file is absent or may
    be read, [get_log_stats] reports as many entries as
    [read_recent_logs(0)] returns lines. *)
Theorem stats_agree_with_reading (self : LogManager) (w : world) :
  (forall f, files w !! log_file_path self = Some f -> readable f = true) ->
  exists lines,
    fst (read_recent_logs self 0 w) = Ok lines
    /\ reported_entries self w = Some (length lines).
Proof.
  intros Hread. destruct (files w !! log_file_path self) as [f|] eqn:Hf.
  - pose proof (Hread f eq_refl) as Hr.
    exists (entries (data f)). split.
    + rewrite (read_recent_logs_entries _ _ _ _ Hf Hr).
      change (- 0)%Z with 0%Z. rewrite slice_from_zero. reflexivity.
    + rewrite (get_log_stats_readable _ _ _ Hf Hr).
      unfold entries, count_entries. rewrite length_map. reflexivity.
  - exists []. unfold reported_entries.
    destruct (proj1 (reading_sentinels_aux self 0 w) Hf) as [-> ->]. split; reflexivity.
Qed.

Lemma read_recent_logs_last_entries_witness :
  fst (read_recent_logs sample_manager 1 two_entry_world)
  = Ok [lit "2024-01-02-030405~030410" ++ [TAB] ++ lit "person waves hand."].
Proof.
  destruct (read_recent_logs_last_entries sample_manager 1 two_entry_world
              {| data := header t_start
                         ++ written_line half_json sample_entry ++ [LF]
                         ++ written_line half_json plain_entry ++ [LF];
                 readable := true; writable := true; mtime := t_start |}
              ltac:(vm_compute; reflexivity) eq_refl ltac:(lia))
    as (lines & Hread & Hlines & _).
  rewrite Hread, Hlines. vm_compute. reflexivity.
Defined.

Lemma read_recent_logs_negative_count_witness :
  fst (read_recent_logs sample_manager (-1) two_entry_world)
  = Ok [lit "2024-01-02-030405~030410" ++ [TAB] ++ lit "person waves hand."].
Proof.
  rewrite (read_recent_logs_negative_count sample_manager (-1) two_entry_world
             {| data := header t_start
                         ++ written_line half_json sample_entry ++ [LF]
                         ++ written_line half_json plain_entry ++ [LF];
                 readable := true; writable := true; mtime := t_start |}).
  - vm_compute. reflexivity.
  - vm_compute. reflexivity.
  - reflexivity.
  - lia.
Defined.

Lemma recent_lines_trimmed_witness :
  Forall (fun l => l <> [] /\ strip l = l)
    [lit "2024-01-02-030405~030410" ++ [TAB] ++ lit "person waves hand."].
Proof.
  apply (recent_lines_trimmed sample_manager 1 two_entry_world).
  vm_compute. reflexivity.
Defined.

Lemma stats_agree_with_reading_witness :
  exists lines,
    fst (read_recent_logs sample_manager 0 two_entry_world) = Ok lines
    /\ reported_entries sample_manager two_entry_world = Some (length lines).
Proof.
  apply (stats_agree_with_reading sample_manager two_entry_world).
  intros f Hf. vm_compute in Hf. injection Hf as <-. reflexivity.
Defined.

(** *** Backing up *)

Lemma with_suffix_dot (p : Path) (suffix : str) :
  with_suffix p (lit "." ++ suffix ++ lit ".txt")
  = if contains (lit "/") suffix then Error (ValueError (lit "Invalid suffix"))
    else if negb (truthy (path_name p)) then Error (ValueError (lit "empty name"))
    else Ok (backup_path p suffix).
Proof.
  unfold with_suffix, backup_path.
  change (lit "/") with [47]. rewrite !contains_char, !existsb_app.
  change (existsb (N.eqb 47) (lit ".")) with false.
  change (existsb (N.eqb 47) (lit ".txt")) with false.
  rewrite orb_false_r. cbn [orb].
  destruct (existsb (N.eqb 47) suffix); [reflexivity|].
  change (lit "." ++ suffix ++ lit ".txt") with (46 :: suffix ++ lit ".txt").
  change (startswith (46 :: suffix ++ lit ".txt") (lit ".")) with true.
  cbn [truthy negb andb orb].
  rewrite bool_decide_eq_false_2.
  2:{ intros H. injection H as H. apply app_eq_nil in H as [_ H]. discriminate H. }
  destruct (truthy (path_name p)); cbn [negb]; [|reflexivity].
  destruct (truthy (path_suffix p)) eqn:Hs; cbn [negb]; [reflexivity|].
  apply truthy_false in Hs. unfold path_stem. rewrite Hs. cbn [length].
  rewrite Nat.sub_0_r, firstn_all. reflexivity.
Qed.

(** What [backup_logs] does, in full: where a backup can be made, the
    path of the copy is returned and the copy put there; otherwise nothing
    is returned and no file changes. *)
Lemma backup_logs_spec (self : LogManager) (backup_suffix : option str) (w : world) :
  fst (backup_logs self backup_suffix w)
  = Ok (if backup_possible self backup_suffix w
        then Some (backup_target self backup_suffix w) else None)
  /\ files (snd (backup_logs self backup_suffix w))
     = match files w !! log_file_path self with
       | Some f => if backup_possible self backup_suffix w
                   then <[backup_target self backup_suffix w := f]> (files w)
                   else files w
       | None => files w
       end.
Proof.
  unfold backup_possible, backup_target.
  unfold backup_logs, try_except, bind, path_exists, lift, copy2, LogManager.print,
    ret, now.
  destruct (files w !! log_file_path self) as [f|] eqn:Hf; cbn [negb];
    [|split; reflexivity].
  destruct backup_suffix as [s|]; cbn [backup_suffix_of fst snd files];
    rewrite with_suffix_dot.
  - destruct (contains (lit "/") s); [split; reflexivity|].
    destruct (truthy (path_name (log_file_path self))); [|split; reflexivity].
    cbn [negb andb]. rewrite Hf.
    destruct (bool_decide (log_file_path self = backup_path (log_file_path self) s));
      [split; reflexivity|].
    destruct (readable f); [|split; reflexivity].
    cbn [negb andb].
    destruct (files w !! backup_path (log_file_path self) s) as [g|];
      [destruct (writable g)|]; split; reflexivity.
  - destruct (contains (lit "/") (strftime (clock w (tick w)) (lit "%Y%m%d_%H%M%S")));
      [split; reflexivity|].
    destruct (truthy (path_name (log_file_path self))); [|split; reflexivity].
    cbn [negb andb files]. rewrite Hf.
    destruct (bool_decide (log_file_path self
                           = backup_path (log_file_path self)
                               (strftime (clock w (tick w)) (lit "%Y%m%d_%H%M%S"))));
      [split; reflexivity|].
    destruct (readable f); [|split; reflexivity].
    cbn [negb andb].
    destruct (files w !! backup_path (log_file_path self)
                           (strftime (clock w (tick w)) (lit "%Y%m%d_%H%M%S")))
      as [g|]; [destruct (writable g)|]; split; reflexivity.
Qed.



(** X18: a backup that returns a path has put there the log file as it
    is, text and metadata, and has changed nothing else: the log file and
    every other file are as before. *)
Theorem backup_logs_copies_log (self : LogManager) (backup_suffix : option str)
    (w : world) (b : Path) :
  fst (backup_logs self backup_suffix w) = Ok (Some b) ->
  exists f,
    files w !! log_file_path self = Some f
    /\ files (snd (backup_logs self backup_suffix w)) !! b = Some f
    /\ (forall q, q <> b ->
                  files (snd (backup_logs self backup_suffix w)) !! q = files w !! q)
    /\ b <> log_file_path self.
Proof.
  destruct (backup_logs_spec self backup_suffix w) as [Hres Hfiles].
  rewrite Hres, Hfiles. unfold backup_possible.
  destruct (files w !! log_file_path self) as [f|] eqn:Hf; [|discriminate].
  match goal with |- context [if ?c then _ else _] => destruct c eqn:Hc end;
    [|discriminate].
  intros [= <-]. exists f. split; [reflexivity|]. split; [apply lookup_insert_eq|].
  split.
  - intros q Hq. apply lookup_insert_ne. congruence.
  - apply andb_true_iff in Hc as [Hc _]. apply andb_true_iff in Hc as [Hc _].
    apply andb_true_iff in Hc as [_ Hc]. apply negb_true_iff in Hc.
    apply bool_decide_eq_false in Hc. congruence.
Qed.

(** X19: a backup has the entries of the log: counted at the path
    [backup_logs] returned, they are as many as in the log file. *)
Theorem backup_keeps_entries (self : LogManager) (backup_suffix : option str)
    (w : world) (b : Path) :
  fst (backup_logs self backup_suffix w) = Ok (Some b) ->
  reported_entries {| log_file_path := b |} (snd (backup_logs self backup_suffix w))
  = reported_entries self w
  /\ reported_entries self w = Some (count_entries (log_text w self)).
Proof.
  destruct (backup_logs_spec self backup_suffix w) as [Hres Hfiles].
  rewrite Hres. unfold backup_possible, log_text.
  destruct (files w !! log_file_path self) as [f|] eqn:Hf; [|discriminate].
  match goal with |- context [if ?c then _ else _] => destruct c eqn:Hc end;
    [|discriminate].
  intros [= <-]. pose proof Hc as Hpossible.
  apply andb_true_iff in Hc as [Hc _]. apply andb_true_iff in Hc as [_ Hr].
  rewrite (get_log_stats_readable self w f Hf Hr).
  rewrite (get_log_stats_readable {| log_file_path := backup_target self backup_suffix w |}
             _ f); [split; reflexivity | | exact Hr].
  cbn [log_file_path]. rewrite Hfiles. unfold backup_possible. rewrite Hf, Hpossible.
  apply lookup_insert_eq.
Qed.


Lemma backup_logs_copies_log_witness :
  exists f,
    files two_entry_world !! log_file_path sample_manager = Some f
    /\ files (snd (backup_logs sample_manager (Some (lit "bak")) two_entry_world))
       !! {| root := false; parts := [lit "logs"; lit "action.bak.txt"] |} = Some f
    /\ (forall q, q <> {| root := false; parts := [lit "logs"; lit "action.bak.txt"] |} ->
                  files (snd (backup_logs sample_manager (Some (lit "bak"))
                                two_entry_world)) !! q
                  = files two_entry_world !! q)
    /\ {| root := false; parts := [lit "logs"; lit "action.bak.txt"] |}
       <> log_file_path sample_manager.
Proof.
  apply (backup_logs_copies_log sample_manager (Some (lit "bak")) two_entry_world).
  vm_compute. reflexivity.
Defined.

Lemma backup_keeps_entries_witness :
  reported_entries
    {| log_file_path := {| root := false; parts := [lit "logs"; lit "action.bak.txt"] |} |}
    (snd (backup_logs sample_manager (Some (lit "bak")) two_entry_world))
  = reported_entries sample_manager two_entry_world
  /\ reported_entries sample_manager two_entry_world
     = Some (count_entries (log_text two_entry_world sample_manager)).
Proof.
  apply (backup_keeps_entries sample_manager (Some (lit "bak")) two_entry_world).
  vm_compute. reflexivity.
Defined.

(** *** Making and clearing the log file *)


(** X21: [clear_logs] answers [True] in every world.  Where the log file
    can be written, it leaves the header alone, with the time of the call,
    and the file may be read as before; where it cannot, no file changes. *)
Theorem clear_logs_true_and_header (self : LogManager) (w : world) :
  fst (clear_logs self w) = Ok true
  /\ (can_write self w = true ->
      exists f',
        files (snd (clear_logs self w)) !! log_file_path self = Some f'
        /\ data f' = header (clock w (tick w))
        /\ readable f' = match files w !! log_file_path self with
                         | Some f => readable f
                         | None => true
                         end)
  /\ (can_write self w = false -> files (snd (clear_logs self w)) = files w).
Proof.
  unfold can_write, clear_logs, try_except, bind, LogManager.print, ret.
  destruct (files w !! log_file_path self) as [f|] eqn:Hf.
  - destruct (writable f) eqn:Hw.
    + rewrite (create_log_file_writable _ _ _ Hf Hw). cbn [fst snd files].
      split; [reflexivity|]. split; [|discriminate].
      intros _. eexists. rewrite lookup_insert_eq. repeat split; reflexivity.
    + rewrite (create_log_file_denied _ _ _ Hf Hw). cbn [fst snd files].
      split; [reflexivity|]. split; [discriminate | reflexivity].
  - rewrite (create_log_file_new _ _ Hf). cbn [fst snd files].
    split; [reflexivity|]. split; [|discriminate].
    intros _. eexists. rewrite lookup_insert_eq. repeat split; reflexivity.
Qed.



(** *** The two logging shortcuts *)

Section Shortcuts.
Context {F : Type}.
Variable float_json : F -> str.
Variable add_seconds : datetime -> Z -> result datetime exn.




(** X25: the two shortcuts compute the end time outside every handler:
    when the date arithmetic raises, the error leaves the log manager as it
    is, whatever its kind, and nothing has been written. *)
Theorem log_shortcuts_raise (self : LogManager) (video_path : Path)
    (signal_type : str) (bbox_normalized : list F) (metadata : list (str * json F))
    (description analysis_mode : str) (trigger_text : option str) (duration_sec : Z)
    (w : world) :
  (forall e, add_seconds (clock w (tick w)) duration_sec = Error e ->
             log_analysis_result float_json add_seconds self video_path bbox_normalized
               description analysis_mode duration_sec w = (Error e, ticked w))
  /\ (forall e, add_seconds (clock w (tick w)) 1 = Error e ->
                log_api_trigger float_json add_seconds self signal_type bbox_normalized
                  metadata trigger_text w = (Error e, ticked w)).
Proof.
  split; intros e He;
    unfold log_analysis_result, log_api_trigger, bind, now, lift; rewrite He;
    reflexivity.
Qed.

End Shortcuts.




Lemma reading_sentinels_witness :
  (fst (read_recent_logs sample_manager 10 empty_world) = Ok []
   /\ fst (get_log_stats sample_manager empty_world) = Ok StatsAbsent)
  /\ (fst (read_recent_logs sample_manager 10 unreadable_world) = Ok []
      /\ fst (get_log_stats sample_manager unreadable_world)
         = Ok (StatsError (PermissionError (lit "logs/action.log")))).
Proof.
  destruct (reading_sentinels sample_manager 10 empty_world) as [Hnone _].
  destruct (reading_sentinels sample_manager 10 unreadable_world) as [_ Hdenied].
  split.
  - apply Hnone. vm_compute. reflexivity.
  - apply (Hdenied {| data := header t_start
                              ++ written_line half_json plain_entry ++ [LF];
                      readable := false; writable := true; mtime := t_start |}).
    + vm_compute. reflexivity.
    + reflexivity.
Defined.


Lemma clear_logs_true_and_header_witness :
  exists f',
    files (snd (clear_logs sample_manager two_entry_world)) !! sample_log = Some f'
    /\ data f' = header t_start
    /\ readable f' = true.
Proof.
  destruct (proj1 (proj2 (clear_logs_true_and_header sample_manager two_entry_world))
              ltac:(vm_compute; reflexivity)) as (f' & Hf' & Hdata & Hr).
  exists f'. split; [exact Hf'|]. split; [exact Hdata|].
  rewrite Hr. vm_compute. reflexivity.
Defined.

Lemma log_shortcuts_raise_witness :
  fst (log_analysis_result half_json failing_add_seconds sample_manager
         {| root := false; parts := [lit "clip.mp4"] |} [tt; tt; tt; tt]
         (lit "person waves hand.") (lit "bbox_based") 5 fresh_world)
  = Error (ValueError (lit "cannot convert float NaN to integer")).
Proof.
  rewrite (proj1 (log_shortcuts_raise half_json failing_add_seconds sample_manager
                    {| root := false; parts := [lit "clip.mp4"] |} (lit "motion")
                    [tt; tt; tt; tt] [] (lit "person waves hand.") (lit "bbox_based")
                    None 5 fresh_world)
             (ValueError (lit "cannot convert float NaN to integer")) eq_refl).
  reflexivity.
Defined.

Lemma appended_extends_text_witness :
  log_text (snd (append_entry half_json sample_manager plain_entry
                   (snd (append_entry half_json sample_manager sample_entry
                           fresh_world)))) sample_manager
  = log_text fresh_world sample_manager
    ++ written_text half_json [sample_entry; plain_entry].
Proof.
  apply (appended_extends_text half_json sample_manager [sample_entry; plain_entry]).
  econstructor; [vm_compute; reflexivity|].
  econstructor; [vm_compute; reflexivity|].
  constructor.
Defined.

End LogFurther.
